(** * p5py.opengl.renderer: the renderer abstraction and its OpenGL backend

    A shallow embedding of [p5py/opengl/renderer.py].  The Python classes
    [BaseRenderer] and [OpenGLRenderer] become two modules of functions in
    a state-and-exception monad.  The state holds everything the methods
    touch: the module-level sketch attributes, the OpenGL context (seen
    as the sequence of calls made to it, its buffer-name allocator and
    the uniform values of the program), and the renderer object's two
    attributes, [shader_program] and [geoms].

    The graphics API itself is not modelled: a call to it is recorded and
    does not fail.  What ctypes does on the way is modelled: the vertex
    coordinates are converted to single-precision floats, which raises
    [OverflowError] for an [int] beyond the doubles, and the indices are
    truncated to 32 bits.  The classes [Shader] and [ShaderProgram] live in
    [shader.py], the sketch attributes in [sketch.py] and [core.fill] in
    [core]; they are modelled as far as the renderer uses them.
    [__repr__] is left out. *)

From Stdlib Require Import ZArith String Ascii DecimalString.
From Stdlib Require Import DecimalZ DecimalPos.
From Stdlib Require SpecFloat.
From stdpp Require Import gmap strings list.

Local Open Scope string_scope.
Local Open Scope list_scope.

(** ** Python values and their [repr] *)

(** The value of a C [float] or [double]: a binary floating-point number
    of IEEE 754, as the Standard Library specifies them.  [GLfloat] is the
    ctypes type [c_float]. *)
Definition GLfloat : Type := SpecFloat.spec_float.

(** Vertex coordinates and colour components are Python numbers (mostly
    floats).  Their arithmetic plays no role in the renderer; all it does
    with them is to print them (in the cache key) and to hand them to
    OpenGL.  They are kept abstract behind their [repr] and their
    conversion to [GLfloat]: the single-precision value that ctypes stores
    for a number, or nothing when ctypes raises [OverflowError] instead. *)
Class Number (num : Type) := {
  repr_num : num → string;
  to_GLfloat : num → option GLfloat;
}.

(** [repr] of a Python [int]. *)
Definition repr_int (z : Z) : string :=
  NilZero.string_of_int (Z.to_int z).

(** The C [double] nearest to a Python [int], infinite when the [int] is
    beyond the range of the doubles. *)
Definition double_of_int (z : Z) : SpecFloat.spec_float :=
  SpecFloat.binary_normalize 53 1024 z 0 false.

(** The cast of a C [double] to a C [float]. *)
Definition float_of_double (d : SpecFloat.spec_float) : GLfloat :=
  match d with
  | SpecFloat.S754_finite s m e =>
      SpecFloat.binary_normalize 24 128 (SpecFloat.cond_Zopp s (Z.pos m)) e s
  | _ => d
  end.

(** A Python [int] stored in a [GLfloat]: ctypes takes its value as a
    double, which raises [OverflowError] for an [int] beyond the doubles,
    and casts the double to a float. *)
Definition int_to_GLfloat (z : Z) : option GLfloat :=
  match double_of_int z with
  | SpecFloat.S754_infinity _ => None
  | d => Some (float_of_double d)
  end.

#[global] Instance Z_Number : Number Z :=
  {| repr_num := repr_int; to_GLfloat := int_to_GLfloat |}.

(** [repr] of a tuple: [()], [(x,)], [(x, y, ...)]. *)
Definition repr_tuple {A} (r : A → string) (t : list A) : string :=
  match t with
  | [] => "()"
  | [x] => "(" +:+ r x +:+ ",)"
  | _ => "(" +:+ String.concat ", " (r <$> t) +:+ ")"
  end.

(** [repr] of a list: [[]], [[x]], [[x, y, ...]]. *)
Definition repr_list {A} (r : A → string) (l : list A) : string :=
  "[" +:+ String.concat ", " (r <$> l) +:+ "]".

(** ** Shapes *)

(** A shape as [test_render] builds it: an object whose [__dict__] holds
    [vertices], a list of coordinate tuples, and [faces], a list of index
    tuples, assigned in this order. *)
Record Shape (num : Type) := {
  vertices : list (list num);
  faces : list (list Z);
}.
Arguments vertices {num} _.
Arguments faces {num} _.

(** The coordinates of a shape convert to [GLfloat]. *)
Definition convertible `{Number num} (shape : Shape num) : Prop :=
  is_Some (mapM to_GLfloat (concat (vertices shape))).

#[global] Instance convertible_dec `{Number num} (shape : Shape num) :
  Decision (convertible shape).
Proof. unfold convertible. apply _. Defined.

(** [str(shape.__dict__)]. *)
Definition str_dict `{Number num} (shape : Shape num) : string :=
  "{'vertices': " +:+ repr_list (repr_tuple repr_num) (vertices shape) +:+
  ", 'faces': " +:+ repr_list (repr_tuple repr_int) (faces shape) +:+ "}".
Arguments str_dict : simpl never.

(** ** Sketch attributes *)

(** A colour.  The renderer only reads [normalized], which it unpacks
    into the four arguments of [glClearColor] and [glUniform4f]. *)
Record Color (num : Type) := {
  normalized : num * num * num * num;
}.
Arguments normalized {num} _.

(** The keys of [sketch._attrs] that the renderer reads. *)
Record SketchAttrs (num : Type) := {
  width : Z;
  height : Z;
  fill_enabled : bool;
  fill_color : Color num;
  stroke_enabled : bool;
  stroke_color : Color num;
  background_color : Color num;
}.
Arguments width {num} _.
Arguments height {num} _.
Arguments fill_enabled {num} _.
Arguments fill_color {num} _.
Arguments stroke_enabled {num} _.
Arguments stroke_color {num} _.
Arguments background_color {num} _.

(** ** The OpenGL context *)

Inductive GLenum :=
  | GL_DEPTH_TEST | GL_LEQUAL
  | GL_ARRAY_BUFFER | GL_ELEMENT_ARRAY_BUFFER | GL_STATIC_DRAW
  | GL_FLOAT | GL_UNSIGNED_INT
  | GL_TRIANGLES | GL_LINE_LOOP.

#[global] Instance GLenum_eq_dec : EqDecision GLenum.
Proof. solve_decision. Defined.

Definition GL_COLOR_BUFFER_BIT : Z := 0x4000.
Definition GL_DEPTH_BUFFER_BIT : Z := 0x0100.

(** The contents of a ctypes array handed to [glBufferData]. *)
Inductive buffer_data :=
  | GLfloat_array (xs : list GLfloat)
  | GLuint_array (xs : list Z).

(** Conversion of a Python [int] to [GLuint] (ctypes truncates). *)
Definition to_GLuint (z : Z) : Z := z mod 2 ^ 32.

(** One call made to the graphics API.  [glGenBuffers] carries the name
    it returned; [glUniform4f] names its location by the uniform's name.
    The last four are the calls of the shader objects. *)
Inductive gl_call (num : Type) :=
  | glEnable (cap : GLenum)
  | glDepthFunc (func : GLenum)
  | glViewport (x y w h : Z)
  | glGenBuffers (n : Z) (name : Z)
  | glBindBuffer (target : GLenum) (buffer : Z)
  | glBufferData (target : GLenum) (size : Z) (data : buffer_data)
      (usage : GLenum)
  | glGetAttribLocation (program : Z) (name : string)
  | glEnableVertexAttribArray (index : Z)
  | glVertexAttribPointer (index size : Z) (type : GLenum)
      (normalize : bool) (stride pointer : Z)
  | glDrawElements (mode : GLenum) (count : nat) (type : GLenum)
      (indices : Z)
  | glUniform4f (location : string) (v : num * num * num * num)
  | glClearColor (c : num * num * num * num)
  | glClear (mask : Z)
  | shader_compile (kind source : string)
  | shader_attach (kind : string) (program : Z)
  | program_link (program : Z)
  | program_activate (program : Z).
Arguments glEnable {num} _.
Arguments glDepthFunc {num} _.
Arguments glViewport {num} _ _ _ _.
Arguments glGenBuffers {num} _ _.
Arguments glBindBuffer {num} _ _.
Arguments glBufferData {num} _ _ _ _.
Arguments glGetAttribLocation {num} _ _.
Arguments glEnableVertexAttribArray {num} _.
Arguments glVertexAttribPointer {num} _ _ _ _ _ _.
Arguments glDrawElements {num} _ _ _ _.
Arguments glUniform4f {num} _ _.
Arguments glClearColor {num} _.
Arguments glClear {num} _.
Arguments shader_compile {num} _ _.
Arguments shader_attach {num} _ _.
Arguments program_link {num} _.
Arguments program_activate {num} _.

(** What the platform answers: whether it supports the renderer at all,
    which shader sources its compiler accepts, whether linking succeeds,
    the program name it hands out and the attribute locations. *)
Record Driver := {
  supported : bool;
  compiles : string → string → bool;
  links : bool;
  new_program : Z;
  attrib_location : Z → string → Z;
}.

(** ** The renderer object *)

(** The function a uniform is set with. *)
Inductive uniform_setter := glUniform4f_setter.

(** Modelled from the spec: the class [ShaderProgram] of [shader.py],
    which "owns a set of named uniform bindings (name → setter
    function)"; [pid] is the attribute the renderer reads. *)
Record ShaderProgram := {
  pid : Z;
  uniforms : gmap string uniform_setter;
}.

(** A value of [self.geoms]. *)
Record BufferEntry := {
  vertex_buffer : Z;
  index_buffer : Z;
  num_elements : nat;
}.

Record State (num : Type) := {
  sketch_attrs : SketchAttrs num;
  driver : Driver;
  gl_calls : list (gl_call num);
  gl_next_buffer : Z;
  gl_uniforms : gmap string (num * num * num * num);
  shader_program : ShaderProgram;
  geoms : gmap string BufferEntry;
}.
Arguments sketch_attrs {num} _.
Arguments driver {num} _.
Arguments gl_calls {num} _.
Arguments gl_next_buffer {num} _.
Arguments gl_uniforms {num} _.
Arguments shader_program {num} _.
Arguments geoms {num} _.

(** ** Exceptions and the monad of methods *)

Inductive exn :=
  | NotImplementedError (msg : string)
  | RuntimeError (msg : string)
  | KeyError (key : string)
  | ShaderCompileError (kind : string)
  | ShaderLinkError
  | UniformError (name : string)
  | OverflowError (msg : string).

(** A method: it changes the state and returns or raises.  The state
    reached is kept when it raises, as in Python. *)
Definition M (num A : Type) : Type := State num → State num * (exn + A).

Definition ret {num A} (a : A) : M num A := λ st, (st, inr a).

Definition raise {num A} (e : exn) : M num A := λ st, (st, inl e).

Definition bind {num A B} (m : M num A) (k : A → M num B) : M num B :=
  λ st, match m st with
        | (st', inr a) => k a st'
        | (st', inl e) => (st', inl e)
        end.

Notation "'do' x <- m ; k" := (bind m (λ x, k))
  (at level 10, x name, m at level 100, k at level 200,
   format "'[v' 'do'  x  <-  m ; '/' k ']'").
Notation "m ;;; k" := (bind m (λ _, k))
  (at level 100, k at level 200, right associativity).

(** The state after running a method, and its outcome. *)
Definition exec {num A} (m : M num A) (st : State num) : State num := (m st).1.
Definition outcome {num A} (m : M num A) (st : State num) : exn + A := (m st).2.

Section Primitives.
Context {num : Type}.

Definition with_gl_calls (c : list (gl_call num)) (st : State num) :=
  {| sketch_attrs := sketch_attrs st; driver := driver st;
     gl_calls := c; gl_next_buffer := gl_next_buffer st;
     gl_uniforms := gl_uniforms st;
     shader_program := shader_program st; geoms := geoms st |}.

Definition with_gl_next_buffer (n : Z) (st : State num) :=
  {| sketch_attrs := sketch_attrs st; driver := driver st;
     gl_calls := gl_calls st; gl_next_buffer := n;
     gl_uniforms := gl_uniforms st;
     shader_program := shader_program st; geoms := geoms st |}.

Definition with_gl_uniforms (u : gmap string (num * num * num * num))
    (st : State num) :=
  {| sketch_attrs := sketch_attrs st; driver := driver st;
     gl_calls := gl_calls st; gl_next_buffer := gl_next_buffer st;
     gl_uniforms := u;
     shader_program := shader_program st; geoms := geoms st |}.

Definition with_shader_program (p : ShaderProgram) (st : State num) :=
  {| sketch_attrs := sketch_attrs st; driver := driver st;
     gl_calls := gl_calls st; gl_next_buffer := gl_next_buffer st;
     gl_uniforms := gl_uniforms st;
     shader_program := p; geoms := geoms st |}.

Definition with_geoms (g : gmap string BufferEntry) (st : State num) :=
  {| sketch_attrs := sketch_attrs st; driver := driver st;
     gl_calls := gl_calls st; gl_next_buffer := gl_next_buffer st;
     gl_uniforms := gl_uniforms st;
     shader_program := shader_program st; geoms := g |}.

(** The sketch attributes are owned by the sketch, which changes them
    between calls of the renderer ([core.fill] and the like). *)
Definition with_sketch_attrs (a : SketchAttrs num) (st : State num) :=
  {| sketch_attrs := a; driver := driver st;
     gl_calls := gl_calls st; gl_next_buffer := gl_next_buffer st;
     gl_uniforms := gl_uniforms st;
     shader_program := shader_program st; geoms := geoms st |}.

(** The same state on a platform that does, or does not, support the
    renderer. *)
Definition with_supported (b : bool) (st : State num) :=
  {| sketch_attrs := sketch_attrs st;
     driver := {| supported := b; compiles := compiles (driver st);
                  links := links (driver st);
                  new_program := new_program (driver st);
                  attrib_location := attrib_location (driver st) |};
     gl_calls := gl_calls st; gl_next_buffer := gl_next_buffer st;
     gl_uniforms := gl_uniforms st;
     shader_program := shader_program st; geoms := geoms st |}.

(** Reading the state. *)
Definition gets {A} (f : State num → A) : M num A := λ st, (st, inr (f st)).

(** A call to the graphics API is appended to the calls made so far. *)
Definition gl (c : gl_call num) : M num unit :=
  λ st, (with_gl_calls (gl_calls st ++ [c]) st, inr tt).

(** [b = GLuint(); glGenBuffers(1, pointer(b))]: a fresh buffer name. *)
Definition gen_buffer : M num Z :=
  λ st, let b := gl_next_buffer st in
        (with_gl_next_buffer (b + 1)
           (with_gl_calls (gl_calls st ++ [glGenBuffers 1 b]) st), inr b).

(** [glGetAttribLocation(program, name)]. *)
Definition get_attrib_location (program : Z) (name : string) : M num Z :=
  λ st, (with_gl_calls (gl_calls st ++ [glGetAttribLocation program name]) st,
         inr (attrib_location (driver st) program name)).

(** [self.geoms[key]]. *)
Definition geoms_item (key : string) : M num BufferEntry :=
  λ st, match geoms st !! key with
        | Some e => (st, inr e)
        | None => (st, inl (KeyError key))
        end.

(** [self.geoms[key] = e]. *)
Definition geoms_setitem (key : string) (e : BufferEntry) : M num unit :=
  λ st, (with_geoms (<[key := e]> (geoms st)) st, inr tt).
End Primitives.

(** ** The shader objects *)

(** Modelled from the spec: the class [Shader] of [shader.py], missing
    here.  "compile shader source → fails with a compile error if the
    source is invalid; attach to program". *)
Module Shader.
Record Shader := { source : string; kind : string }.

Section Methods.
Context {num : Type}.

Definition compile (self : Shader) : M num unit :=
  do d <- gets driver;
  if compiles d (kind self) (source self)
  then gl (shader_compile (kind self) (source self))
  else raise (ShaderCompileError (kind self)).

Definition attach (self : Shader) (program : ShaderProgram) : M num unit :=
  gl (shader_attach (kind self) (pid program)).
End Methods.
End Shader.

(** Modelled from the spec: the methods of [ShaderProgram] in
    [shader.py], missing here.  "link program → fails if linking fails;
    activate (bind as current); add uniform(name, setter) registers a
    named uniform slot; set uniform data(name, values...) pushes values
    through the registered setter, fails if the name is unregistered". *)
Module ShaderProgram.
Section Methods.
Context {num : Type}.

(** [ShaderProgram()]: a new program without uniforms. *)
Definition new : M num ShaderProgram :=
  do d <- gets driver;
  ret {| pid := new_program d; uniforms := ∅ |}.

Definition link : M num unit :=
  do d <- gets driver;
  do p <- gets shader_program;
  if links d then gl (program_link (pid p)) else raise ShaderLinkError.

Definition activate : M num unit :=
  do p <- gets shader_program;
  gl (program_activate (pid p)).

Definition add_uniform (name : string) (f : uniform_setter) : M num unit :=
  λ st, let p := shader_program st in
        (with_shader_program
           {| pid := pid p; uniforms := <[name := f]> (uniforms p) |} st,
         inr tt).

(** The setter [glUniform4f]: the call is made and the program's
    uniform takes the value. *)
Definition call_setter (f : uniform_setter) (name : string)
    (data : num * num * num * num) : M num unit :=
  match f with
  | glUniform4f_setter =>
      λ st, (with_gl_uniforms (<[name := data]> (gl_uniforms st))
               (with_gl_calls (gl_calls st ++ [glUniform4f name data]) st),
             inr tt)
  end.

Definition set_uniform_data (name : string)
    (data : num * num * num * num) : M num unit :=
  do p <- gets shader_program;
  match uniforms p !! name with
  | Some f => call_setter f name data
  | None => raise (UniformError name)
  end.
End Methods.
End ShaderProgram.

(** ** class BaseRenderer *)

Module BaseRenderer.
Section Methods.
Context {num : Type}.

Definition __init__ : M num unit := raise (NotImplementedError "Abstract").

Definition initialize : M num unit := raise (NotImplementedError "Abstract").

Definition check_support : M num bool := raise (NotImplementedError "Abstract").

Definition pre_render : M num unit := ret tt.

Definition render (shape : Shape num) : M num unit :=
  raise (NotImplementedError "Abstract").

Definition post_render : M num unit := ret tt.

Definition clear : M num unit := raise (NotImplementedError "Abstract").

Definition cleanup : M num unit := ret tt.

Definition test_render : M num unit := raise (NotImplementedError "Abstract").
End Methods.
End BaseRenderer.

(** ** What [test_render] needs from outside *)

(** The arithmetic of Python's numbers, as far as [test_render] uses it:
    an [int] among the numbers, a float literal (given by its text),
    [+], [-], [/] and unary [-]. *)
Class Arith (num : Type) := {
  of_int : Z → num;
  of_float : string → num;
  num_add : num → num → num;
  num_sub : num → num → num;
  num_truediv : num → num → num;
  num_neg : num → num;
}.

(** The numbers that are floats by the way they are made: a float
    literal, a quotient, and the sum, the difference and the negative of
    floats. *)
Inductive is_float `{Arith num} : num → Prop :=
  | is_float_literal text : is_float (of_float text)
  | is_float_truediv a b : is_float (num_truediv a b)
  | is_float_add a b : is_float a → is_float b → is_float (num_add a b)
  | is_float_sub a b : is_float a → is_float b → is_float (num_sub a b)
  | is_float_neg a : is_float a → is_float (num_neg a).

(** What the conversion to [GLfloat] does with these numbers: a float is
    cast, whatever its value, and the [int] 0 converts. *)
Class ArithLaws (num : Type) `{Number num} `{!Arith num} : Prop := {
  float_converts : ∀ x : num, is_float x → is_Some (to_GLfloat x);
  zero_converts : is_Some (to_GLfloat (of_int 0 : num));
}.

(** [core.fill], which is not in this file: what it makes of the sketch
    attributes, given its arguments.  It is taken to change the sketch
    attributes only, and not to raise. *)
Class Core (num : Type) :=
  core_fill : list num → SketchAttrs num → SketchAttrs num.

Definition fill `{Core num} (args : list num) : M num unit :=
  λ st, (with_sketch_attrs (core_fill args (sketch_attrs st)) st, inr tt).

(** [range(start, stop)]. *)
Definition range (start stop : Z) : list Z := seqZ start (stop - start).

(** [for x in l: body(x)]. *)
Fixpoint for_each {num A} (l : list A) (body : A → M num unit) : M num unit :=
  match l with
  | [] => ret tt
  | x :: l' => body x;;; for_each l' body
  end.

(** ** class OpenGLRenderer(BaseRenderer) *)

Module OpenGLRenderer.
Definition vertex_shader_source : string := "
            #version 130

            in vec3 position;

            void main()
            {
                gl_Position = vec4(position, 1.0);
            }
        ".

Definition fragment_shader_source : string := "
            #version 130

            out vec4 outColor;
            uniform vec4 fill_color;

            void main()
            {
                gl_FragColor = fill_color;
            }
        ".

Section Methods.
Context `{Number num}.

Definition __init__ : M num unit :=
  do p <- ShaderProgram.new;
  λ st, (with_geoms ∅ (with_shader_program p st), inr tt).

(** The loop [for shader in shaders: shader.compile();
    shader.attach(self.shader_program)]. *)
Fixpoint compile_and_attach (shaders : list Shader.Shader) : M num unit :=
  match shaders with
  | [] => ret tt
  | shader :: rest =>
      Shader.compile shader;;;
      do p <- gets shader_program;
      Shader.attach shader p;;;
      compile_and_attach rest
  end.

Definition _init_shaders : M num unit :=
  let shaders :=
    [ {| Shader.source := vertex_shader_source; Shader.kind := "vertex" |};
      {| Shader.source := fragment_shader_source; Shader.kind := "fragment" |} ] in
  compile_and_attach shaders;;;
  ShaderProgram.link;;;
  ShaderProgram.activate;;;
  ShaderProgram.add_uniform "fill_color" glUniform4f_setter.

Definition initialize : M num unit :=
  gl (glEnable GL_DEPTH_TEST);;;
  gl (glDepthFunc GL_LEQUAL);;;
  do attrs <- gets sketch_attrs;
  gl (glViewport 0 0 (width attrs) (height attrs));;;
  _init_shaders.

(** The ctypes array of type [GLfloat * len(xs)] made from the numbers
    [xs]: each is converted to [GLfloat] in turn, and a number that does
    not convert raises. *)
Definition new_GLfloat_array (xs : list num) : M num (list GLfloat) :=
  match mapM to_GLfloat xs with
  | Some a => ret a
  | None => raise (OverflowError "int too large to convert to float")
  end.

Definition _create_buffers (shape : Shape num) : M num string :=
  let shape_hash := str_dict shape in
  do cache <- gets geoms;
  if decide (is_Some (cache !! shape_hash)) then ret shape_hash else
  do vertex_buffer <- gen_buffer;
  do index_buffer <- gen_buffer;
  gl (glBindBuffer GL_ARRAY_BUFFER vertex_buffer);;;
  let vertices := concat (vertices shape) in
  do vertices_typed <- new_GLfloat_array vertices;
  gl (glBufferData GL_ARRAY_BUFFER (4 * Z.of_nat (length vertices_typed))
        (GLfloat_array vertices_typed) GL_STATIC_DRAW);;;
  let elements := concat (faces shape) in
  gl (glBindBuffer GL_ELEMENT_ARRAY_BUFFER index_buffer);;;
  gl (glBufferData GL_ELEMENT_ARRAY_BUFFER (4 * Z.of_nat (length elements))
        (GLuint_array (to_GLuint <$> elements)) GL_STATIC_DRAW);;;
  do p <- gets shader_program;
  do position_attr <- get_attrib_location (pid p) "position";
  gl (glEnableVertexAttribArray position_attr);;;
  gl (glVertexAttribPointer position_attr 3 GL_FLOAT false 0 0);;;
  geoms_setitem shape_hash
    {| vertex_buffer := vertex_buffer; index_buffer := index_buffer;
       num_elements := length elements |};;;
  ret shape_hash.

Definition _draw_buffers (shape_hash : string) : M num unit :=
  do e <- geoms_item shape_hash;
  gl (glBindBuffer GL_ARRAY_BUFFER (vertex_buffer e));;;
  do p <- gets shader_program;
  do position_attr <- get_attrib_location (pid p) "position";
  gl (glEnableVertexAttribArray position_attr);;;
  gl (glVertexAttribPointer position_attr 3 GL_FLOAT false 0 0);;;
  do attrs <- gets sketch_attrs;
  (if fill_enabled attrs then
     ShaderProgram.set_uniform_data "fill_color"
       (normalized (fill_color attrs));;;
     do e <- geoms_item shape_hash;
     gl (glBindBuffer GL_ELEMENT_ARRAY_BUFFER (index_buffer e));;;
     do e <- geoms_item shape_hash;
     gl (glDrawElements GL_TRIANGLES (num_elements e) GL_UNSIGNED_INT 0)
   else ret tt);;;
  do attrs <- gets sketch_attrs;
  if stroke_enabled attrs then
    ShaderProgram.set_uniform_data "fill_color"
      (normalized (stroke_color attrs));;;
    do e <- geoms_item shape_hash;
    gl (glDrawElements GL_LINE_LOOP (num_elements e) GL_UNSIGNED_INT 0)
  else ret tt.

Definition render (shape : Shape num) : M num unit :=
  do shape_hash <- _create_buffers shape;
  _draw_buffers shape_hash.

Definition clear : M num unit :=
  do attrs <- gets sketch_attrs;
  gl (glClearColor (normalized (background_color attrs)));;;
  gl (glClear (Z.lor GL_COLOR_BUFFER_BIT GL_DEPTH_BUFFER_BIT)).

(** Inherited from [BaseRenderer]. *)
Definition check_support : M num bool := BaseRenderer.check_support.
Definition pre_render : M num unit := BaseRenderer.pre_render.
Definition post_render : M num unit := BaseRenderer.post_render.
Definition cleanup : M num unit := BaseRenderer.cleanup.
End Methods.

Section TestRender.
Context `{Number num} `{!Arith num} `{!Core num}.

(** The class [TestRect] of [test_render]. *)
Definition TestRect (x y w h : num) : Shape num :=
  {| vertices :=
       [ [x; y; of_int 0];
         [num_add x w; y; of_int 0];
         [num_add x w; num_sub y h; of_int 0];
         [x; num_sub y h; of_int 0] ];
     faces := [[0; 1; 2]; [2; 3; 0]]%Z |}.

Definition test_render : M num unit :=
  let lim := 16%Z in
  for_each (range (-1 * lim) lim) (λ i,
    let norm_i := num_truediv (of_int (i + lim)) (of_int (lim * 2)) in
    let r := TestRect (num_truediv (of_int i) (of_int 8))
               (of_float "0.95") (of_float "0.2") (of_float "0.6") in
    fill [num_sub (of_int 1) norm_i; of_float "0.1"; norm_i];;;
    render r;;;
    let r := TestRect (num_truediv (of_int i) (of_int 8))
               (of_float "0.3") (of_float "0.2") (of_float "0.6") in
    fill [of_float "0.1"; norm_i; num_sub (of_int 1) norm_i; of_float "1.0"];;;
    render r;;;
    let r := TestRect (num_truediv (of_int i) (of_int 8))
               (num_neg (of_float "0.35")) (of_float "0.2") (of_float "0.6") in
    fill [norm_i; num_sub (of_int 1) norm_i; of_float "0.1"; of_float "1.0"];;;
    render r).
End TestRender.
End OpenGLRenderer.

(** ** The renderer as a state machine *)

(** The operations of the renderer interface, as the sketch calls them
    on an [OpenGLRenderer]. *)
Inductive method (num : Type) :=
  | Initialize
  | CheckSupport
  | PreRender
  | Render (shape : Shape num)
  | PostRender
  | Clear
  | Cleanup.
Arguments Initialize {num}.
Arguments CheckSupport {num}.
Arguments PreRender {num}.
Arguments Render {num} _.
Arguments PostRender {num}.
Arguments Clear {num}.
Arguments Cleanup {num}.

Definition call `{Number num} (m : method num) : M num unit :=
  match m with
  | Initialize => OpenGLRenderer.initialize
  | CheckSupport => do _ <- OpenGLRenderer.check_support; ret tt
  | PreRender => OpenGLRenderer.pre_render
  | Render shape => OpenGLRenderer.render shape
  | PostRender => OpenGLRenderer.post_render
  | Clear => OpenGLRenderer.clear
  | Cleanup => OpenGLRenderer.cleanup
  end.

(** A sequence of calls by a caller that goes on after an exception. *)
Definition run `{Number num} (ops : list (method num)) (st : State num) : State num :=
  foldl (λ st m, exec (call m) st) st ops.

(** The shapes rendered by a sequence of calls. *)
Definition rendered {num} (ops : list (method num)) : list (Shape num) :=
  omap (λ m, match m with Render shape => Some shape | _ => None end) ops.

(** The shapes among those rendered whose coordinates convert. *)
Definition uploaded `{Number num} (ops : list (method num)) : list (Shape num) :=
  filter (λ shape, convertible shape) (rendered ops).

(** The states of a renderer: it is constructed in some ambient state,
    then its methods are called, and between the calls the sketch may
    change its attributes. *)
Inductive reachable `{Number num} : State num → Prop :=
  | reachable_new w :
      reachable (exec OpenGLRenderer.__init__ w)
  | reachable_call st m :
      reachable st → reachable (exec (call m) st)
  | reachable_sketch st attrs :
      reachable st → reachable (with_sketch_attrs attrs st).

(** ** Observations *)

(** The calls to the graphics API that a method makes from a state. *)
Definition calls_of {num A} (m : M num A) (st : State num) : list (gl_call num) :=
  drop (length (gl_calls st)) (gl_calls (exec m st)).

Definition is_draw {num} (c : gl_call num) : bool :=
  match c with glDrawElements _ _ _ _ => true | _ => false end.

Definition draw_count {num} (c : gl_call num) : option nat :=
  match c with glDrawElements _ count _ _ => Some count | _ => None end.

Definition draw_mode {num} (c : gl_call num) : option GLenum :=
  match c with glDrawElements mode _ _ _ => Some mode | _ => None end.

(** Creating a buffer or filling it. *)
Definition is_upload {num} (c : gl_call num) : bool :=
  match c with
  | glGenBuffers _ _ | glBufferData _ _ _ _ => true
  | _ => false
  end.

(** The uniform [fill_color] is registered, as [initialize] leaves it. *)
Definition initialized {num} (st : State num) : Prop :=
  is_Some (uniforms (shader_program st) !! "fill_color").

(** A method keeps a relation between the state before and after. *)
Definition keeps {num A} (R : State num → State num → Prop) (m : M num A) : Prop :=
  ∀ st, R st (exec m st).

Definition same_sketch_attrs {num} (st st' : State num) : Prop :=
  sketch_attrs st' = sketch_attrs st.
Definition same_geoms {num} (st st' : State num) : Prop :=
  geoms st' = geoms st.
Definition same_uniforms {num} (st st' : State num) : Prop :=
  gl_uniforms st' = gl_uniforms st.
Definition same_program {num} (st st' : State num) : Prop :=
  shader_program st' = shader_program st.
Definition more_calls {num} (st st' : State num) : Prop :=
  gl_calls st `prefix_of` gl_calls st'.

(** The uniforms of the program after are [fill_color] or uniforms of the
    program before. *)
Definition few_uniforms {num} (st st' : State num) : Prop :=
  ∀ name, is_Some (uniforms (shader_program st') !! name) →
    name = "fill_color" ∨ is_Some (uniforms (shader_program st) !! name).

(** Every entry of the cache was recorded for some shape with that key. *)
Definition cache_ok `{Number num} (st : State num) : Prop :=
  ∀ key e, geoms st !! key = Some e →
    ∃ shape : Shape num,
      str_dict shape = key ∧ num_elements e = length (concat (faces shape)).

(** ** Reading the element count off a cache key *)

Definition is_digit (c : ascii) : bool :=
  (48 <=? nat_of_ascii c)%nat && (nat_of_ascii c <=? 57)%nat.

Definition is_quote (c : ascii) : bool := Ascii.eqb c "'".

(** The number of runs of digits after the last quote of a string:
    [in_number] tells whether the previous character was a digit and [n]
    is the number of runs seen since the last quote. *)
Fixpoint count_ints (in_number : bool) (n : nat) (s : string) : nat :=
  match s with
  | EmptyString => n
  | String c s' =>
      if is_quote c then count_ints false 0 s'
      else if is_digit c then count_ints true (if in_number then n else S n) s'
      else count_ints false n s'
  end.

(** ** Example data *)

Definition white : Color Z := {| normalized := (1, 1, 1, 1)%Z |}.
Definition black : Color Z := {| normalized := (0, 0, 0, 1)%Z |}.
Definition grey : Color Z := {| normalized := (0, 0, 0, 0)%Z |}.

Definition example_attrs (fill stroke : bool) : SketchAttrs Z :=
  {| width := 600; height := 400;
     fill_enabled := fill; fill_color := white;
     stroke_enabled := stroke; stroke_color := black;
     background_color := grey |}.

(** A platform on which everything works, and two that do not support
    the renderer: one whose compiler rejects the shaders and one whose
    compiler takes them all the same. *)
Definition good_driver : Driver :=
  {| supported := true; compiles := λ _ _, true; links := true;
     new_program := 1; attrib_location := λ _ _, 0%Z |}.
Definition rejecting_driver : Driver :=
  {| supported := false; compiles := λ _ _, false; links := false;
     new_program := 1; attrib_location := λ _ _, 0%Z |}.
Definition lenient_driver : Driver :=
  {| supported := false; compiles := λ _ _, true; links := true;
     new_program := 1; attrib_location := λ _ _, 0%Z |}.

(** The state in which a renderer is constructed. *)
Definition ambient (d : Driver) (fill stroke : bool) : State Z :=
  {| sketch_attrs := example_attrs fill stroke; driver := d;
     gl_calls := []; gl_next_buffer := 1; gl_uniforms := ∅;
     shader_program := {| pid := 0; uniforms := ∅ |}; geoms := ∅ |}.

(** [OpenGLRenderer()]. *)
Definition constructed (d : Driver) (fill stroke : bool) : State Z :=
  exec OpenGLRenderer.__init__ (ambient d fill stroke).

(** [OpenGLRenderer()] followed by [initialize()]. *)
Definition started (d : Driver) (fill stroke : bool) : State Z :=
  run [Initialize] (exec OpenGLRenderer.__init__ (ambient d fill stroke)).

(** [TestRect(0, 0, 1, 1)]. *)
Definition unit_square : Shape Z :=
  {| vertices := [[0; 0; 0]; [1; 0; 0]; [1; -1; 0]; [0; -1; 0]]%Z;
     faces := [[0; 1; 2]; [2; 3; 0]]%Z |}.

(** [Shape()]: no vertices, no faces. *)
Definition empty_shape : Shape Z := {| vertices := []; faces := [] |}.

(** A shape with vertices and no faces. *)
Definition faceless : Shape Z :=
  {| vertices := [[0; 0; 0]; [1; 0; 0]; [1; -1; 0]]%Z; faces := [] |}.

(** ** Numbers that print well *)

Fixpoint all_chars (p : ascii → bool) (s : string) : bool :=
  match s with
  | EmptyString => true
  | String c s' => p c && all_chars p s'
  end.

(** A character that can stand in an item of a tuple: neither of the
    two that can follow one. *)
Definition is_item_char (c : ascii) : bool :=
  negb (Ascii.eqb c ",") && negb (Ascii.eqb c ")").

Definition is_int_char (c : ascii) : bool := is_digit c || Ascii.eqb c "-".

Definition not_quote (c : ascii) : bool := negb (is_quote c).

(** What the [repr] of Python's numbers has: different numbers print
    differently, and a number prints as a word without a comma or a
    closing parenthesis. *)
Class NumberLaws (num : Type) `{Number num} : Prop := {
  repr_num_inj : ∀ x y : num, repr_num x = repr_num y → x = y;
  repr_num_nonempty : ∀ x : num, repr_num x ≠ "";
  repr_num_chars : ∀ x : num, all_chars is_item_char (repr_num x) = true;
}.

(** ** Further observations *)

(** A renderer that was constructed and called, and has its uniform. *)
Definition ready `{Number num} (st : State num) : Prop :=
  reachable st ∧ initialized st.

(** From one state to a later one, calls were added, and the draw calls
    among them have [n] elements. *)
Definition draws_with {num} (n : nat) (st st' : State num) : Prop :=
  ∃ l, gl_calls st' = gl_calls st ++ l ∧
       Forall (λ c, is_draw c = true → draw_count c = Some n) l.

(** A method that, on a ready renderer, returns, leaves it ready and
    draws with [n] elements. *)
Definition draws_ready `{Number num} (n : nat) (m : M num unit) : Prop :=
  ∀ st, ready st →
    outcome m st = inr tt ∧ ready (exec m st) ∧ draws_with n st (exec m st).

(** From one state to a later one the cache has kept its entries and got
    at most [n] more. *)
Definition cache_grows {num} (n : nat) (st st' : State num) : Prop :=
  geoms st ⊆ geoms st' ∧ (size (geoms st') ≤ size (geoms st) + n)%nat.

(** Numbers kept as the expressions that make them, to run
    [test_render] on. *)
Inductive expr :=
  | Int (z : Z)
  | Float (text : string)
  | Add (a b : expr)
  | Sub (a b : expr)
  | TrueDiv (a b : expr)
  | Neg (a : expr).

Fixpoint repr_expr (e : expr) : string :=
  match e with
  | Int z => repr_int z
  | Float text => text
  | Add a b => "<" +:+ repr_expr a +:+ "+" +:+ repr_expr b +:+ ">"
  | Sub a b => "<" +:+ repr_expr a +:+ "-" +:+ repr_expr b +:+ ">"
  | TrueDiv a b => "<" +:+ repr_expr a +:+ "/" +:+ repr_expr b +:+ ">"
  | Neg a => "<-" +:+ repr_expr a +:+ ">"
  end.

(** The value of such a number: an [int] or a float, which is a
    double. *)
Inductive value :=
  | VInt (z : Z)
  | VFloat (d : SpecFloat.spec_float).

Definition as_double (v : value) : SpecFloat.spec_float :=
  match v with
  | VInt z => double_of_int z
  | VFloat d => d
  end.

(** The digits of a literal [ddd.ddd], read as one integer, and the
    number of them after the point. *)
Fixpoint literal_digits (seen_point : bool) (n k : Z) (text : string) : Z * Z :=
  match text with
  | EmptyString => (n, k)
  | String c text' =>
      if Ascii.eqb c "." then literal_digits true n k text'
      else literal_digits seen_point (10 * n + (Z.of_nat (nat_of_ascii c) - 48))
             (if seen_point then k + 1 else k) text'
  end.

(** The double of a float literal: its digits divided by the power of
    ten, rounded once. *)
Definition float_literal (text : string) : SpecFloat.spec_float :=
  let '(n, k) := literal_digits false 0 0 text in
  SpecFloat.SFdiv 53 1024 (double_of_int n) (double_of_int (10 ^ k)).

(** Python's arithmetic: exact on [int]s, in double precision as soon as
    a float takes part, and a quotient is a float.  This is as far as
    [test_render] goes: its [int]s are doubles and it does not divide by
    zero. *)
Fixpoint eval (e : expr) : value :=
  match e with
  | Int z => VInt z
  | Float text => VFloat (float_literal text)
  | Add a b =>
      match eval a, eval b with
      | VInt x, VInt y => VInt (x + y)
      | u, v => VFloat (SpecFloat.SFadd 53 1024 (as_double u) (as_double v))
      end
  | Sub a b =>
      match eval a, eval b with
      | VInt x, VInt y => VInt (x - y)
      | u, v => VFloat (SpecFloat.SFsub 53 1024 (as_double u) (as_double v))
      end
  | TrueDiv a b =>
      VFloat (SpecFloat.SFdiv 53 1024 (as_double (eval a)) (as_double (eval b)))
  | Neg a =>
      match eval a with
      | VInt x => VInt (- x)
      | VFloat d => VFloat (SpecFloat.SFopp d)
      end
  end.

Definition expr_to_GLfloat (e : expr) : option GLfloat :=
  match eval e with
  | VInt z => int_to_GLfloat z
  | VFloat d => Some (float_of_double d)
  end.

#[global] Instance expr_Number : Number expr :=
  {| repr_num := repr_expr; to_GLfloat := expr_to_GLfloat |}.

#[global] Instance expr_Arith : Arith expr :=
  {| of_int := Int; of_float := Float; num_add := Add; num_sub := Sub;
     num_truediv := TrueDiv; num_neg := Neg |}.

(** A [core.fill] that enables fill and takes the colour from its three
    or four arguments. *)
#[global] Instance expr_Core : Core expr := λ args attrs,
  let color :=
    match args with
    | [r; g; b] => {| normalized := (r, g, b, Int 1) |}
    | [r; g; b; a] => {| normalized := (r, g, b, a) |}
    | _ => fill_color attrs
    end in
  {| width := width attrs; height := height attrs;
     fill_enabled := true; fill_color := color;
     stroke_enabled := stroke_enabled attrs;
     stroke_color := stroke_color attrs;
     background_color := background_color attrs |}.

(** The state in which a renderer over these numbers is constructed. *)
Definition ambient_expr (stroke : bool) : State expr :=
  {| sketch_attrs :=
       {| width := 600; height := 400;
          fill_enabled := false;
          fill_color := {| normalized := (Int 1, Int 1, Int 1, Int 1) |};
          stroke_enabled := stroke;
          stroke_color := {| normalized := (Int 0, Int 0, Int 0, Int 1) |};
          background_color := {| normalized := (Int 0, Int 0, Int 0, Int 0) |} |};
     driver := good_driver; gl_calls := []; gl_next_buffer := 1;
     gl_uniforms := ∅;
     shader_program := {| pid := 0; uniforms := ∅ |}; geoms := ∅ |}.

(** A new renderer over these numbers, initialised. *)
Definition started_expr (stroke : bool) : State expr :=
  run [Initialize] (exec OpenGLRenderer.__init__ (ambient_expr stroke)).

Definition is_gen_buffers {num} (c : gl_call num) : bool :=
  match c with glGenBuffers _ _ => true | _ => false end.

(** The buffer bound to a target after a sequence of calls: the one of
    the last [glBindBuffer] for that target. *)
Definition bound_buffer {num} (target : GLenum) (calls : list (gl_call num)) :
    option Z :=
  last (omap (λ c, match c with
                   | glBindBuffer t b => if decide (t = target) then Some b else None
                   | _ => None
                   end) calls).

(** A shape with one face. *)
Definition triangle : Shape Z :=
  {| vertices := [[0; 0; 0]; [1; 0; 0]; [0; 1; 0]]%Z; faces := [[0; 1; 2]]%Z |}.

(** The triangle with a coordinate that is no double. *)
Definition huge : Shape Z :=
  {| vertices := [[0; 0; 0]; [10 ^ 400; 0; 0]; [0; 1; 0]]%Z;
     faces := [[0; 1; 2]]%Z |}.

(** * Properties *)

(** ** Relations kept by the methods *)

#[global] Instance same_sketch_attrs_preorder {num} : PreOrder (@same_sketch_attrs num).
Proof. split; unfold same_sketch_attrs; [done | congruence]. Qed.
#[global] Instance same_geoms_preorder {num} : PreOrder (@same_geoms num).
Proof. split; unfold same_geoms; [done | congruence]. Qed.
#[global] Instance same_uniforms_preorder {num} : PreOrder (@same_uniforms num).
Proof. split; unfold same_uniforms; [done | congruence]. Qed.
#[global] Instance same_program_preorder {num} : PreOrder (@same_program num).
Proof. split; unfold same_program; [done | congruence]. Qed.
#[global] Instance more_calls_preorder {num} : PreOrder (@more_calls num).
Proof.
  split.
  - intros st. unfold more_calls. reflexivity.
  - intros st1 st2 st3. unfold more_calls. intros. by etrans.
Qed.

#[global] Instance few_uniforms_preorder {num} : PreOrder (@few_uniforms num).
Proof.
  split.
  - intros st name. by right.
  - intros st1 st2 st3 H12 H23 name Hn.
    destruct (H23 name Hn) as [->|Hn']; [by left | by apply H12].
Qed.

Section Keeps.
Context {num : Type} (R : State num → State num → Prop) `{!PreOrder R}.

Lemma keeps_ret {A} (a : A) : keeps R (ret a).
Proof. intros st. reflexivity. Qed.

Lemma keeps_raise {A} (e : exn) : keeps R (@raise num A e).
Proof. intros st. reflexivity. Qed.

Lemma keeps_gets {A} (f : State num → A) : keeps R (gets f).
Proof. intros st. reflexivity. Qed.

Lemma keeps_bind {A B} (m : M num A) (k : A → M num B) :
  keeps R m → (∀ a, keeps R (k a)) → keeps R (bind m k).
Proof.
  intros Hm Hk st. specialize (Hm st). unfold exec, bind in *.
  destruct (m st) as [st' [e|a]]; simpl in *; [done|].
  etransitivity; [exact Hm | apply Hk].
Qed.
End Keeps.

(** A method is taken apart along its binds and branches; what is left
    are the primitive steps, on which the relation is checked by
    computation. *)
Ltac keeps_primitive :=
  let st := fresh "st" in
  intros st;
  unfold exec, geoms_item, geoms_setitem, ShaderProgram.add_uniform,
    ShaderProgram.call_setter, more_calls, same_sketch_attrs, same_geoms,
    same_uniforms, same_program, few_uniforms;
  simpl; repeat case_match; simpl;
  first [ reflexivity | by apply prefix_app_r | by eexists
        | by (intros ? ?; right) ].

Ltac keeps_tac :=
  repeat match goal with
  | |- keeps _ (bind _ _) => apply keeps_bind; [apply _ | | intros ?]
  | |- keeps _ (ret _) => apply keeps_ret; apply _
  | |- keeps _ (raise _) => apply keeps_raise; apply _
  | |- keeps _ (gets _) => apply keeps_gets; apply _
  | |- keeps _ (if ?b then _ else _) => destruct b
  | |- keeps _ (match ?x with _ => _ end) => destruct x
  | |- keeps _ _ =>
      progress unfold OpenGLRenderer.render, OpenGLRenderer._create_buffers,
        OpenGLRenderer.new_GLfloat_array,
        OpenGLRenderer._draw_buffers, OpenGLRenderer.clear,
        OpenGLRenderer.initialize, OpenGLRenderer._init_shaders,
        OpenGLRenderer.compile_and_attach,
        OpenGLRenderer.check_support, OpenGLRenderer.pre_render,
        OpenGLRenderer.post_render, OpenGLRenderer.cleanup,
        BaseRenderer.check_support, BaseRenderer.pre_render,
        BaseRenderer.post_render, BaseRenderer.cleanup,
        Shader.compile, Shader.attach, ShaderProgram.link,
        ShaderProgram.activate, ShaderProgram.set_uniform_data
  | |- keeps _ _ => solve [keeps_primitive]
  end.

Section Frames.
Context `{Number num}.
Implicit Types (st : State num) (shape : Shape num) (m : method num).

Lemma _create_buffers_keeps_sketch_attrs shape :
  keeps same_sketch_attrs (OpenGLRenderer._create_buffers shape).
Proof. keeps_tac. Qed.

Lemma _draw_buffers_keeps_geoms key :
  keeps same_geoms (OpenGLRenderer._draw_buffers (num:=num) key).
Proof. keeps_tac. Qed.

Lemma _create_buffers_keeps_program shape :
  keeps same_program (OpenGLRenderer._create_buffers shape).
Proof. keeps_tac. Qed.

Lemma _create_buffers_keeps_uniforms shape :
  keeps same_uniforms (OpenGLRenderer._create_buffers shape).
Proof. keeps_tac. Qed.

Lemma initialize_keeps_geoms : keeps same_geoms (@OpenGLRenderer.initialize num).
Proof. keeps_tac. Qed.

Lemma initialize_keeps_uniforms : keeps same_uniforms (@OpenGLRenderer.initialize num).
Proof. keeps_tac. Qed.

Lemma initialize_few_uniforms : keeps few_uniforms (@OpenGLRenderer.initialize num).
Proof.
  keeps_tac. intros st name. unfold exec, ShaderProgram.add_uniform. simpl.
  destruct (decide (name = "fill_color")) as [->|Hne]; [by left|].
  rewrite lookup_insert_ne by done. by right.
Qed.

(** Every method only adds to the calls made so far. *)
Lemma call_more_calls m : keeps more_calls (call m).
Proof. destruct m; simpl; keeps_tac. Qed.

Lemma calls_of_spec {A} (mth : M num A) st :
  keeps more_calls mth → gl_calls (exec mth st) = gl_calls st ++ calls_of mth st.
Proof.
  intros Hm. destruct (Hm st) as [k Hk]. unfold calls_of.
  by rewrite Hk, drop_app_length.
Qed.
End Frames.

(** ** The two halves of [render] *)

(** Evaluation of a method on a state whose fields are variables. *)
Ltac open_state st :=
  let a := fresh "attrs" in
  let p := fresh "prog" in
  destruct st as [a ? ? ? ? p ?]; destruct a; destruct p; simpl in *.

Ltac run :=
  unfold calls_of, exec, outcome, initialized,
    OpenGLRenderer.render, OpenGLRenderer._create_buffers,
    OpenGLRenderer.new_GLfloat_array,
    OpenGLRenderer._draw_buffers, OpenGLRenderer.clear,
    ShaderProgram.set_uniform_data, ShaderProgram.call_setter,
    geoms_item, geoms_setitem, gen_buffer, get_attrib_location,
    gl, gets, bind, ret, raise in *;
  simpl in *.

Ltac new_calls := rewrite <- ?app_assoc, ?drop_app_length; simpl.

Section Halves.
Context `{Number num}.
Implicit Types (st : State num) (shape : Shape num) (e : BufferEntry).

Lemma _create_buffers_cached shape st :
  is_Some (geoms st !! str_dict shape) →
  OpenGLRenderer._create_buffers shape st = (st, inr (str_dict shape)).
Proof. intros Hk. run. by rewrite decide_True. Qed.

Lemma _create_buffers_returns shape st :
  convertible shape →
  outcome (OpenGLRenderer._create_buffers shape) st = inr (str_dict shape).
Proof. intros [a Ha]. run. case_decide; [done|]. simpl. by rewrite Ha. Qed.

(** A shape that does not convert, under a key that is not cached:
    [_create_buffers] raises when it has generated the two buffers and
    bound the first, and the cache is as it was. *)
Lemma _create_buffers_overflow shape st :
  geoms st !! str_dict shape = None →
  ¬ convertible shape →
  outcome (OpenGLRenderer._create_buffers shape) st =
    inl (OverflowError "int too large to convert to float") ∧
  calls_of (OpenGLRenderer._create_buffers shape) st =
    [ glGenBuffers 1 (gl_next_buffer st);
      glGenBuffers 1 (gl_next_buffer st + 1);
      glBindBuffer GL_ARRAY_BUFFER (gl_next_buffer st) ] ∧
  geoms (exec (OpenGLRenderer._create_buffers shape) st) = geoms st.
Proof.
  intros Hk Hc. apply eq_None_not_Some in Hc.
  run. rewrite decide_False by (rewrite Hk; by intros [? ?]).
  simpl. rewrite Hc. simpl. repeat split. by new_calls.
Qed.

Lemma _create_buffers_geoms shape st :
  ∃ e, num_elements e = length (concat (faces shape)) ∧
    geoms (exec (OpenGLRenderer._create_buffers shape) st) =
      match geoms st !! str_dict shape with
      | Some _ => geoms st
      | None =>
          if decide (convertible shape) then <[str_dict shape := e]> (geoms st)
          else geoms st
      end.
Proof.
  run. case_decide as Hk; simpl.
  - destruct Hk as [e ->]. by exists {| vertex_buffer := 0; index_buffer := 0;
      num_elements := length (concat (faces shape)) |}.
  - apply eq_None_not_Some in Hk. rewrite Hk.
    case_decide as Hc.
    + destruct Hc as [a Ha]. rewrite Ha. simpl. by eexists {| num_elements := _ |}.
    + apply eq_None_not_Some in Hc. rewrite Hc. simpl.
      by exists {| vertex_buffer := 0; index_buffer := 0;
        num_elements := length (concat (faces shape)) |}.
Qed.

Lemma _create_buffers_caches shape st :
  convertible shape →
  is_Some (geoms (exec (OpenGLRenderer._create_buffers shape) st) !! str_dict shape).
Proof.
  intros Hc. destruct (_create_buffers_geoms shape st) as (e & _ & ->).
  destruct (geoms st !! str_dict shape) eqn:E; [by rewrite E|].
  rewrite decide_True by done. rewrite lookup_insert_eq. eauto.
Qed.

Lemma _create_buffers_draws_nothing shape st :
  List.filter is_draw (calls_of (OpenGLRenderer._create_buffers shape) st) = [].
Proof.
  run. case_decide; simpl; [by rewrite drop_all|].
  destruct (mapM _ _); simpl; new_calls; done.
Qed.

Lemma render_unfold shape st :
  convertible shape →
  OpenGLRenderer.render shape st =
  OpenGLRenderer._draw_buffers (str_dict shape)
    (exec (OpenGLRenderer._create_buffers shape) st).
Proof.
  intros Hc. pose proof (_create_buffers_returns shape st Hc) as Hr.
  unfold OpenGLRenderer.render, bind, outcome, exec in *.
  destruct (OpenGLRenderer._create_buffers shape st) as [st' r].
  simpl in *. by subst r.
Qed.

(** When [_create_buffers] raises, so does [render], at once. *)
Lemma render_overflow shape st :
  geoms st !! str_dict shape = None →
  ¬ convertible shape →
  OpenGLRenderer.render shape st =
    (exec (OpenGLRenderer._create_buffers shape) st,
     inl (OverflowError "int too large to convert to float")).
Proof.
  intros Hk Hc. destruct (_create_buffers_overflow shape st Hk Hc) as (Hr & _).
  unfold OpenGLRenderer.render, bind, outcome, exec in *.
  destruct (OpenGLRenderer._create_buffers shape st) as [st' r].
  simpl in *. by subst r.
Qed.

Lemma render_cached shape st :
  is_Some (geoms st !! str_dict shape) →
  OpenGLRenderer.render shape st = OpenGLRenderer._draw_buffers (str_dict shape) st.
Proof.
  intros Hk. unfold OpenGLRenderer.render, bind.
  by rewrite _create_buffers_cached.
Qed.

(** The state after [render] is the state after its two halves, also
    when the first raises: the second then finds no entry and leaves the
    state alone. *)
Lemma render_exec shape st :
  exec (OpenGLRenderer.render shape) st =
  exec (OpenGLRenderer._draw_buffers (str_dict shape))
    (exec (OpenGLRenderer._create_buffers shape) st).
Proof.
  destruct (geoms st !! str_dict shape) as [e|] eqn:Hk.
  { unfold exec. rewrite render_cached, _create_buffers_cached by eauto. done. }
  destruct (decide (convertible shape)) as [Hc|Hc].
  { unfold exec at 1. by rewrite render_unfold. }
  destruct (_create_buffers_overflow shape st Hk Hc) as (_ & _ & Hg).
  unfold exec at 1. rewrite render_overflow by done. simpl.
  set (st' := exec (OpenGLRenderer._create_buffers shape) st) in *.
  unfold exec, OpenGLRenderer._draw_buffers, bind, geoms_item.
  by rewrite Hg, Hk.
Qed.

Lemma render_calls shape st :
  calls_of (OpenGLRenderer.render shape) st =
  calls_of (OpenGLRenderer._create_buffers shape) st ++
  calls_of (OpenGLRenderer._draw_buffers (str_dict shape))
    (exec (OpenGLRenderer._create_buffers shape) st).
Proof.
  assert (keeps more_calls (OpenGLRenderer._create_buffers shape)) as Hc
    by keeps_tac.
  assert (keeps more_calls (OpenGLRenderer._draw_buffers (num:=num) (str_dict shape)))
    as Hd by keeps_tac.
  unfold calls_of at 1. rewrite render_exec.
  rewrite (calls_of_spec _ _ Hd), (calls_of_spec _ _ Hc).
  by rewrite <- app_assoc, drop_app_length.
Qed.

(** The calls of [_draw_buffers]: the vertex buffer is bound and the
    attribute layout set, then come the fill pass and the stroke pass. *)
Lemma _draw_buffers_run key e st :
  geoms st !! key = Some e →
  (fill_enabled (sketch_attrs st) || stroke_enabled (sketch_attrs st) = true →
   initialized st) →
  let attrs := sketch_attrs st in
  let location := attrib_location (driver st) (pid (shader_program st)) "position" in
  outcome (OpenGLRenderer._draw_buffers key) st = inr tt ∧
  calls_of (OpenGLRenderer._draw_buffers key) st =
    [ glBindBuffer GL_ARRAY_BUFFER (vertex_buffer e);
      glGetAttribLocation (pid (shader_program st)) "position";
      glEnableVertexAttribArray location;
      glVertexAttribPointer location 3 GL_FLOAT false 0 0 ] ++
    (if fill_enabled attrs
     then [ glUniform4f "fill_color" (normalized (fill_color attrs));
            glBindBuffer GL_ELEMENT_ARRAY_BUFFER (index_buffer e);
            glDrawElements GL_TRIANGLES (num_elements e) GL_UNSIGNED_INT 0 ]
     else []) ++
    (if stroke_enabled attrs
     then [ glUniform4f "fill_color" (normalized (stroke_color attrs));
            glDrawElements GL_LINE_LOOP (num_elements e) GL_UNSIGNED_INT 0 ]
     else []) ∧
  gl_uniforms (exec (OpenGLRenderer._draw_buffers key) st) =
    (if stroke_enabled attrs
     then <["fill_color" := normalized (stroke_color attrs)]> else id)
      ((if fill_enabled attrs
        then <["fill_color" := normalized (fill_color attrs)]> else id)
         (gl_uniforms st)).
Proof.
  intros Hk Hi. open_state st. run. rewrite Hk. simpl.
  destruct fill_enabled0, stroke_enabled0; simpl in *;
    try (destruct Hi as [[] Hu]; [done|];
         repeat (first [rewrite Hu | rewrite Hk]; simpl));
    new_calls; done.
Qed.

(** [_draw_buffers] creates no buffer and fills none. *)
Lemma _draw_buffers_uploads_nothing key st :
  List.filter is_upload (calls_of (OpenGLRenderer._draw_buffers key) st) = [].
Proof.
  open_state st. run.
  destruct (_ !! key) as [e|] eqn:Hk; simpl; [|by rewrite drop_all].
  destruct (uniforms0 !! "fill_color") as [[]|] eqn:Hu;
    destruct fill_enabled0, stroke_enabled0; simpl;
    repeat (first [rewrite Hu | rewrite Hk]; simpl);
    new_calls; done.
Qed.

(** What [_create_buffers] uploads: nothing for a cached key; else it
    generates two buffers and, if the coordinates convert, fills them
    with the vertices and the indices of the shape. *)
Lemma _create_buffers_uploads shape st :
  List.filter is_upload (calls_of (OpenGLRenderer._create_buffers shape) st) =
  if decide (is_Some (geoms st !! str_dict shape)) then []
  else
    [ glGenBuffers 1 (gl_next_buffer st);
      glGenBuffers 1 (gl_next_buffer st + 1) ] ++
    match mapM to_GLfloat (concat (vertices shape)) with
    | Some vertices_typed =>
        [ glBufferData GL_ARRAY_BUFFER (4 * Z.of_nat (length vertices_typed))
            (GLfloat_array vertices_typed) GL_STATIC_DRAW;
          glBufferData GL_ELEMENT_ARRAY_BUFFER
            (4 * Z.of_nat (length (concat (faces shape))))
            (GLuint_array (to_GLuint <$> concat (faces shape))) GL_STATIC_DRAW ]
    | None => []
    end.
Proof.
  run. case_decide; simpl; [by rewrite drop_all|].
  destruct (mapM _ _); simpl; new_calls; done.
Qed.

(** Without the uniform, the first enabled pass raises before it writes
    or draws. *)
Lemma _draw_buffers_uniforms_uninitialized key st :
  ¬ initialized st →
  gl_uniforms (exec (OpenGLRenderer._draw_buffers key) st) = gl_uniforms st.
Proof.
  intros Hi. open_state st. run.
  destruct (_ !! key) as [e|] eqn:Hk; simpl; [|done].
  apply eq_None_not_Some in Hi.
  destruct fill_enabled0, stroke_enabled0; simpl; rewrite ?Hi; simpl; done.
Qed.
End Halves.

(** ** The element count can be read off the cache key *)

Lemma append_String (c : ascii) (s t : string) :
  String c s +:+ t = String c (s +:+ t).
Proof. reflexivity. Qed.

Lemma append_Empty (t : string) : "" +:+ t = t.
Proof. reflexivity. Qed.

Lemma string_app_assoc (a b c : string) : (a +:+ b) +:+ c = a +:+ (b +:+ c).
Proof.
  induction a as [|x a IH]; [done|].
  by rewrite !append_String, IH.
Qed.

Lemma concat_cons2 (sep x y : string) (l : list string) :
  String.concat sep (x :: y :: l) = x +:+ sep +:+ String.concat sep (y :: l).
Proof. reflexivity. Qed.

Lemma count_ints_other (c : ascii) (b : bool) (n : nat) (s : string) :
  is_quote c = false → is_digit c = false →
  count_ints b n (String c s) = count_ints false n s.
Proof. intros Hq Hd. simpl. by rewrite Hq, Hd. Qed.

Ltac str_norm := rewrite ?string_app_assoc, ?append_String, ?append_Empty.
Ltac skip_chars := rewrite !count_ints_other by reflexivity.

(** Whatever precedes a quote is forgotten. *)
Lemma count_ints_quote (s1 s2 : string) (b : bool) (n : nat) :
  count_ints b n (s1 +:+ String "'" s2) = count_ints false 0 s2.
Proof.
  revert b n. induction s1 as [|c s1 IH]; intros b n; str_norm; simpl; [done|].
  destruct (is_quote c), (is_digit c); apply IH.
Qed.

Lemma count_ints_digits (d : Decimal.uint) (n : nat) (rest : string) :
  count_ints true n (NilEmpty.string_of_uint d +:+ rest) = count_ints true n rest.
Proof. induction d; simpl; str_norm; simpl; done. Qed.

Lemma count_ints_uint (d : Decimal.uint) (n : nat) (rest : string) :
  count_ints false n (NilZero.string_of_uint d +:+ rest) = count_ints true (S n) rest.
Proof. destruct d; simpl; str_norm; simpl; try done; apply count_ints_digits. Qed.

(** An integer is one run of digits, after its sign. *)
Lemma count_ints_repr_int (z : Z) (n : nat) (rest : string) :
  count_ints false n (repr_int z +:+ rest) = count_ints true (S n) rest.
Proof.
  unfold repr_int. destruct (Z.to_int z) as [d|d]; simpl NilZero.string_of_int.
  - apply count_ints_uint.
  - str_norm. simpl. apply count_ints_uint.
Qed.

Lemma count_ints_items (x : Z) (t : list Z) (n : nat) (c : ascii) (rest : string) :
  is_quote c = false → is_digit c = false →
  count_ints false n (String.concat ", " (repr_int <$> x :: t) +:+ String c rest)
  = count_ints false (n + length (x :: t)) rest.
Proof.
  intros Hq Hd. revert x n. induction t as [|y t IH]; intros x n.
  - simpl. rewrite count_ints_repr_int. simpl. rewrite Hq, Hd. f_equal. lia.
  - rewrite !fmap_cons, concat_cons2, <- fmap_cons. str_norm.
    rewrite count_ints_repr_int. skip_chars. rewrite IH. simpl. f_equal. lia.
Qed.

Lemma count_ints_tuple (t : list Z) (n : nat) (rest : string) :
  count_ints false n (repr_tuple repr_int t +:+ rest)
  = count_ints false (n + length t) rest.
Proof.
  destruct t as [|x [|y t]].
  - simpl. str_norm. simpl. f_equal. lia.
  - simpl. str_norm. simpl. rewrite count_ints_repr_int. simpl. f_equal; lia.
  - unfold repr_tuple. str_norm. skip_chars. by rewrite count_ints_items.
Qed.

Lemma count_ints_tuples (f : list Z) (fs : list (list Z)) (n : nat)
    (c : ascii) (rest : string) :
  is_quote c = false → is_digit c = false →
  count_ints false n
    (String.concat ", " (repr_tuple repr_int <$> f :: fs) +:+ String c rest)
  = count_ints false (n + length (concat (f :: fs))) rest.
Proof.
  intros Hq Hd. revert f n. induction fs as [|g fs IH]; intros f n.
  - simpl String.concat. rewrite count_ints_tuple. simpl. rewrite Hq, Hd.
    by rewrite app_nil_r.
  - rewrite !fmap_cons, concat_cons2, <- fmap_cons. str_norm.
    rewrite count_ints_tuple. skip_chars.
    rewrite IH. f_equal. simpl. rewrite !length_app. lia.
Qed.

Lemma count_ints_faces (fs : list (list Z)) (n : nat) (rest : string) :
  count_ints false n (repr_list (repr_tuple repr_int) fs +:+ rest)
  = count_ints false (n + length (concat fs)) rest.
Proof.
  unfold repr_list. destruct fs as [|f fs].
  - simpl. str_norm. simpl. f_equal. lia.
  - str_norm. skip_chars. by rewrite count_ints_tuples.
Qed.

Section Fingerprint.
Context `{Number num}.
Implicit Types (st : State num) (shape : Shape num).

(** The key ends with the faces, which hold no quote: the runs of digits
    after its last quote are the indices of the faces, however the
    vertices are printed. *)
Lemma count_ints_str_dict shape :
  count_ints false 0 (str_dict shape) = length (concat (faces shape)).
Proof.
  unfold str_dict.
  set (V := repr_list (repr_tuple repr_num) (vertices shape)).
  set (F := repr_list (repr_tuple repr_int) (faces shape)).
  transitivity (count_ints false 0
    (("{'vertices': " +:+ V +:+ ", 'faces") +:+ String "'" (": " +:+ F +:+ "}"))).
  { f_equal. by str_norm. }
  rewrite count_ints_quote. str_norm. skip_chars.
  subst F. rewrite count_ints_faces. reflexivity.
Qed.

Lemma str_dict_num_elements (s1 s2 : Shape num) :
  str_dict s1 = str_dict s2 →
  length (concat (faces s1)) = length (concat (faces s2)).
Proof. intros E. by rewrite <- !count_ints_str_dict, E. Qed.

(** ** The cache holds what [_create_buffers] recorded *)

Lemma call_geoms (m : method num) st :
  geoms (exec (call m) st) =
  match m with
  | Render shape => geoms (exec (OpenGLRenderer._create_buffers shape) st)
  | _ => geoms st
  end.
Proof.
  destruct m; simpl; try reflexivity.
  - apply initialize_keeps_geoms.
  - rewrite render_exec. apply _draw_buffers_keeps_geoms.
Qed.

Lemma cache_ok_create shape st :
  cache_ok st → cache_ok (exec (OpenGLRenderer._create_buffers shape) st).
Proof.
  intros Hok key e.
  destruct (_create_buffers_geoms shape st) as (e' & Hn & ->).
  destruct (geoms st !! str_dict shape) eqn:Hk; [apply Hok|].
  case_decide; [|apply Hok].
  destruct (decide (key = str_dict shape)) as [->|Hne].
  - rewrite lookup_insert_eq. intros [= <-]. by exists shape.
  - rewrite lookup_insert_ne by done. apply Hok.
Qed.

Lemma reachable_cache_ok st : reachable st → cache_ok st.
Proof.
  induction 1 as [w|st m _ IH|st attrs _ IH].
  - intros key e. unfold exec, OpenGLRenderer.__init__, ShaderProgram.new,
      bind, gets, ret. simpl. by rewrite lookup_empty.
  - intros key e. rewrite call_geoms. destruct m; try apply IH.
    by apply cache_ok_create.
  - exact IH.
Qed.

(** The entry that [_draw_buffers] finds counts the indices of the shape
    being rendered, also when an earlier shape recorded it. *)
Lemma render_entry shape st :
  convertible shape →
  cache_ok st →
  ∃ e, geoms (exec (OpenGLRenderer._create_buffers shape) st) !! str_dict shape
         = Some e ∧
       num_elements e = length (concat (faces shape)).
Proof.
  intros Hconv Hok. destruct (_create_buffers_caches shape st Hconv) as [e He].
  exists e. split; [done|].
  destruct (cache_ok_create shape st Hok _ _ He) as (shape' & Hs & ->).
  by apply str_dict_num_elements.
Qed.

Lemma initialized_create shape st :
  initialized st → initialized (exec (OpenGLRenderer._create_buffers shape) st).
Proof.
  unfold initialized. by rewrite (_create_buffers_keeps_program shape st).
Qed.

Lemma sketch_attrs_create shape st :
  sketch_attrs (exec (OpenGLRenderer._create_buffers shape) st) = sketch_attrs st.
Proof. apply _create_buffers_keeps_sketch_attrs. Qed.

(** What [render] draws on an initialised renderer. *)
Lemma render_draws shape st :
  convertible shape →
  cache_ok st → initialized st →
  outcome (OpenGLRenderer.render shape) st = inr tt ∧
  List.filter is_draw (calls_of (OpenGLRenderer.render shape) st) =
    (if fill_enabled (sketch_attrs st)
     then [glDrawElements GL_TRIANGLES (length (concat (faces shape)))
             GL_UNSIGNED_INT 0]
     else []) ++
    (if stroke_enabled (sketch_attrs st)
     then [glDrawElements GL_LINE_LOOP (length (concat (faces shape)))
             GL_UNSIGNED_INT 0]
     else []).
Proof.
  intros Hconv Hok Hi.
  destruct (render_entry shape st Hconv Hok) as (e & He & Hn).
  pose proof (initialized_create shape st Hi) as Hi'.
  destruct (_draw_buffers_run _ _ _ He (λ _, Hi')) as (Hr & Hc & _).
  split.
  - unfold outcome. by rewrite render_unfold.
  - rewrite render_calls, List.filter_app, _create_buffers_draws_nothing, Hc.
    rewrite sketch_attrs_create, Hn.
    by destruct (fill_enabled (sketch_attrs st)), (stroke_enabled (sketch_attrs st)).
Qed.
End Fingerprint.

(** ** The cache only grows *)

Section Growth.
Context `{Number num}.
Implicit Types (st : State num) (shape : Shape num) (m : method num).

Lemma call_subseteq m st : geoms st ⊆ geoms (exec (call m) st).
Proof.
  rewrite call_geoms. destruct m; try done.
  destruct (_create_buffers_geoms shape st) as (e & _ & ->).
  destruct (geoms st !! str_dict shape) eqn:Hk; [done|].
  case_decide; [|done]. by apply insert_subseteq.
Qed.

Lemma run_subseteq (ops : list (method num)) st : geoms st ⊆ geoms (run ops st).
Proof.
  revert st. induction ops as [|m ops IH]; intros st; simpl; [done|].
  etrans; [apply (call_subseteq m) | apply IH].
Qed.

Lemma call_dom m st :
  dom (geoms (exec (call m) st)) =
  list_to_set (str_dict <$> uploaded [m]) ∪ dom (geoms st).
Proof.
  rewrite call_geoms. unfold uploaded.
  destruct m; simpl; rewrite ?filter_nil; simpl;
    try (by rewrite union_empty_l_L).
  destruct (_create_buffers_geoms shape st) as (e & _ & ->).
  rewrite filter_cons, filter_nil.
  destruct (geoms st !! str_dict shape) eqn:Hk.
  - case_decide; simpl; [|by rewrite union_empty_l_L].
    rewrite union_empty_r_L.
    symmetry. apply subseteq_union_1_L, singleton_subseteq_l, elem_of_dom.
    eauto.
  - case_decide; simpl; [|by rewrite union_empty_l_L].
    rewrite union_empty_r_L. apply dom_insert_L.
Qed.

Lemma run_cons m (ops : list (method num)) st :
  run (m :: ops) st = run ops (exec (call m) st).
Proof. reflexivity. Qed.

Lemma uploaded_cons m (ops : list (method num)) :
  uploaded (m :: ops) = uploaded [m] ++ uploaded ops.
Proof.
  unfold uploaded. destruct m; simpl; try done.
  rewrite !filter_cons, filter_nil. by case_decide.
Qed.

Lemma run_dom (ops : list (method num)) st :
  dom (geoms (run ops st)) =
  list_to_set (str_dict <$> uploaded ops) ∪ dom (geoms st).
Proof.
  revert st. induction ops as [|m ops IH]; intros st.
  - simpl. by rewrite union_empty_l_L.
  - rewrite run_cons, IH, call_dom, (uploaded_cons m ops).
    rewrite fmap_app, list_to_set_app_L, (assoc_L (∪)). f_equal.
    apply (comm_L (∪)).
Qed.

(** A shape that is cached, or does not convert, adds nothing to the
    cache. *)
Lemma render_same_geoms shape st :
  is_Some (geoms st !! str_dict shape) ∨ ¬ convertible shape →
  geoms (exec (OpenGLRenderer.render shape) st) = geoms st.
Proof.
  intros Hor. change (OpenGLRenderer.render shape) with (call (Render shape)).
  rewrite call_geoms.
  destruct (_create_buffers_geoms shape st) as (e & _ & ->).
  destruct (geoms st !! str_dict shape) eqn:Hk; [done|].
  destruct Hor as [[? ?]|Hc]; [done|]. by rewrite decide_False.
Qed.

(** Where every rendered shape converts, all of them were uploaded. *)
Lemma uploaded_all (ops : list (method num)) :
  Forall (λ shape, convertible shape) (rendered ops) →
  uploaded ops = rendered ops.
Proof.
  unfold uploaded. induction 1 as [|shape l Hc _ IH]; [done|].
  rewrite filter_cons, decide_True by done. by rewrite IH.
Qed.
End Growth.

(** ** What [initialize] does *)

Lemma initialize_run {num} (st : State num) :
  let d := driver st in
  let vertex := compiles d "vertex" OpenGLRenderer.vertex_shader_source in
  let fragment := compiles d "fragment" OpenGLRenderer.fragment_shader_source in
  let program := pid (shader_program st) in
  calls_of OpenGLRenderer.initialize st =
    [ glEnable GL_DEPTH_TEST; glDepthFunc GL_LEQUAL;
      glViewport 0 0 (width (sketch_attrs st)) (height (sketch_attrs st)) ] ++
    (if vertex then
       [ shader_compile "vertex" OpenGLRenderer.vertex_shader_source;
         shader_attach "vertex" program ] ++
       (if fragment then
          [ shader_compile "fragment" OpenGLRenderer.fragment_shader_source;
            shader_attach "fragment" program ] ++
          (if links d then [program_link program; program_activate program]
           else [])
        else [])
     else []) ∧
  outcome OpenGLRenderer.initialize st =
    (if vertex then
       if fragment then
         if links d then inr tt else inl ShaderLinkError
       else inl (ShaderCompileError "fragment")
     else inl (ShaderCompileError "vertex")).
Proof.
  destruct st as [attrs d calls next us prog cache].
  unfold calls_of, outcome, exec, OpenGLRenderer.initialize,
    OpenGLRenderer._init_shaders, OpenGLRenderer.compile_and_attach,
    Shader.compile, Shader.attach, ShaderProgram.link,
    ShaderProgram.activate, ShaderProgram.add_uniform,
    gl, gets, bind, ret, raise.
  simpl.
  destruct (compiles d "vertex" _); simpl; [|by new_calls].
  destruct (compiles d "fragment" _); simpl; [|by new_calls].
  destruct (links d); simpl; by new_calls.
Qed.

(** * The claims *)

Section Claims.
Context `{Number num}.
Implicit Types (st w : State num) (shape : Shape num) (m : method num).

(** C1.  Rendering the same shape twice in a row leaves the cache after
    the second call as after the first, with the same number of entries.
    If the coordinates of the shape convert to [GLfloat], its buffers are
    uploaded at most once and the cache entry is reused: after the first
    call the key [str(shape.__dict__)] is in the cache; the first call
    uploads nothing if the key was cached already and else generates and
    fills the two buffers; in the second call [_create_buffers] returns
    the key without touching the state and no buffer is generated or
    filled. *)
Theorem render_twice_reuses_entry shape st :
  let st1 := exec (OpenGLRenderer.render shape) st in
  let st2 := exec (OpenGLRenderer.render shape) st1 in
  (geoms st2 = geoms st1 ∧ size (geoms st2) = size (geoms st1)) ∧
  ∀ vertices_typed,
    mapM to_GLfloat (concat (vertices shape)) = Some vertices_typed →
    is_Some (geoms st1 !! str_dict shape) ∧
    List.filter is_upload (calls_of (OpenGLRenderer.render shape) st) =
      (if decide (is_Some (geoms st !! str_dict shape)) then []
       else
         [ glGenBuffers 1 (gl_next_buffer st);
           glGenBuffers 1 (gl_next_buffer st + 1);
           glBufferData GL_ARRAY_BUFFER
             (4 * Z.of_nat (length vertices_typed))
             (GLfloat_array vertices_typed) GL_STATIC_DRAW;
           glBufferData GL_ELEMENT_ARRAY_BUFFER
             (4 * Z.of_nat (length (concat (faces shape))))
             (GLuint_array (to_GLuint <$> concat (faces shape))) GL_STATIC_DRAW ]) ∧
    OpenGLRenderer._create_buffers shape st1 = (st1, inr (str_dict shape)) ∧
    List.filter is_upload (calls_of (OpenGLRenderer.render shape) st1) = [].
Proof.
  intros st1 st2.
  assert (convertible shape → is_Some (geoms st1 !! str_dict shape)) as Hcached.
  { intros Hc. subst st1. rewrite render_exec.
    rewrite (_draw_buffers_keeps_geoms (str_dict shape) _).
    by apply _create_buffers_caches. }
  assert (geoms st2 = geoms st1) as Hg.
  { subst st2. apply render_same_geoms.
    destruct (decide (convertible shape)) as [Hc|Hc]; [left; auto | by right]. }
  split; [by rewrite Hg|].
  intros vertices_typed Ha.
  assert (convertible shape) as Hc by (by exists vertices_typed).
  pose proof (Hcached Hc) as Hk.
  repeat split; [done | | by apply _create_buffers_cached |].
  - rewrite render_calls, List.filter_app, _draw_buffers_uploads_nothing, app_nil_r.
    rewrite _create_buffers_uploads, Ha. by case_decide.
  - unfold calls_of, exec. rewrite (render_cached _ _ Hk).
    apply _draw_buffers_uploads_nothing.
Qed.

(** C3.  With both fill and stroke disabled, [render] issues no draw
    call: neither pass is run.  It returns if the shape is cached or its
    coordinates convert to [GLfloat]. *)
Theorem render_disabled_draws_nothing shape st :
  fill_enabled (sketch_attrs st) = false →
  stroke_enabled (sketch_attrs st) = false →
  List.filter is_draw (calls_of (OpenGLRenderer.render shape) st) = [] ∧
  (is_Some (geoms st !! str_dict shape) ∨ convertible shape →
   outcome (OpenGLRenderer.render shape) st = inr tt).
Proof.
  intros Hf Hs.
  assert (∀ st', fill_enabled (sketch_attrs st') = false →
    stroke_enabled (sketch_attrs st') = false →
    ∀ e, geoms st' !! str_dict shape = Some e →
    outcome (OpenGLRenderer._draw_buffers (str_dict shape)) st' = inr tt ∧
    calls_of (OpenGLRenderer._draw_buffers (str_dict shape)) st' =
      [ glBindBuffer GL_ARRAY_BUFFER (vertex_buffer e);
        glGetAttribLocation (pid (shader_program st')) "position";
        glEnableVertexAttribArray
          (attrib_location (driver st') (pid (shader_program st')) "position");
        glVertexAttribPointer
          (attrib_location (driver st') (pid (shader_program st')) "position")
          3 GL_FLOAT false 0 0 ]) as Hdraw.
  { intros st' Hf' Hs' e He.
    destruct (_draw_buffers_run _ _ _ He) as (Hr & Hc & _).
    { by rewrite Hf', Hs'. }
    rewrite Hf', Hs' in Hc. by rewrite app_nil_r in Hc. }
  split.
  - rewrite render_calls, List.filter_app, _create_buffers_draws_nothing.
    set (st' := exec (OpenGLRenderer._create_buffers shape) st).
    destruct (geoms st' !! str_dict shape) as [e|] eqn:He.
    + assert (sketch_attrs st' = sketch_attrs st) as Ha
        by apply sketch_attrs_create.
      destruct (Hdraw st' ltac:(by rewrite Ha) ltac:(by rewrite Ha) e He)
        as [_ ->].
      done.
    + unfold calls_of, exec, OpenGLRenderer._draw_buffers, bind, geoms_item.
      rewrite He. simpl. by rewrite drop_all.
  - intros [Hk|Hc].
    + unfold outcome. rewrite render_cached by done.
      destruct Hk as [e He]. by destruct (Hdraw st Hf Hs e He).
    + unfold outcome. rewrite render_unfold by done.
      destruct (_create_buffers_caches shape st Hc) as [e He].
      pose proof (sketch_attrs_create shape st) as Ha.
      by destruct (Hdraw _ ltac:(by rewrite Ha) ltac:(by rewrite Ha) e He).
Qed.

(** C9.  [render] and [clear] leave the sketch attributes as they found
    them. *)
Theorem render_clear_keep_sketch_attrs shape st :
  sketch_attrs (exec (OpenGLRenderer.render shape) st) = sketch_attrs st ∧
  sketch_attrs (exec OpenGLRenderer.clear st) = sketch_attrs st.
Proof.
  split; [|reflexivity].
  assert (keeps same_sketch_attrs (OpenGLRenderer.render shape)) as K
    by keeps_tac.
  apply K.
Qed.

(** C2.  A shape with four vertices and two triangular faces, whose
    coordinates convert to [GLfloat], rendered with fill enabled and
    stroke disabled on an initialised renderer: exactly one draw call, in
    triangle mode with element count 6, and no line-loop call. *)
Theorem render_square_fill_only shape st :
  length (vertices shape) = 4 →
  length (faces shape) = 2 →
  Forall (λ face, length face = 3) (faces shape) →
  convertible shape →
  reachable st → initialized st →
  fill_enabled (sketch_attrs st) = true →
  stroke_enabled (sketch_attrs st) = false →
  List.filter is_draw (calls_of (OpenGLRenderer.render shape) st) =
    [glDrawElements GL_TRIANGLES 6 GL_UNSIGNED_INT 0].
Proof.
  intros _ Hlen Hfaces Hconv Hreach Hi Hf Hs.
  destruct (render_draws shape st Hconv (reachable_cache_ok _ Hreach) Hi)
    as [_ ->].
  rewrite Hf, Hs. simpl.
  destruct (faces shape) as [|f1 [|f2 [|]]]; try done.
  apply Forall_cons in Hfaces as [H1 Hfaces].
  apply Forall_cons in Hfaces as [H2 _].
  simpl. by rewrite app_nil_r, length_app, H1, H2.
Qed.

(** C4.  A shape without faces whose coordinates convert to [GLfloat],
    rendered on an initialised renderer: [render] returns without
    raising, the cache entry of the shape records 0 elements, and the
    draw calls issued are one in triangle mode if fill is enabled and one
    line loop if stroke is enabled, each with element count 0. *)
Theorem render_no_faces shape st :
  faces shape = [] →
  convertible shape →
  reachable st → initialized st →
  outcome (OpenGLRenderer.render shape) st = inr tt ∧
  (∃ e, geoms (exec (OpenGLRenderer.render shape) st) !! str_dict shape = Some e ∧
        num_elements e = 0) ∧
  List.filter is_draw (calls_of (OpenGLRenderer.render shape) st) =
    (if fill_enabled (sketch_attrs st)
     then [glDrawElements GL_TRIANGLES 0 GL_UNSIGNED_INT 0] else []) ++
    (if stroke_enabled (sketch_attrs st)
     then [glDrawElements GL_LINE_LOOP 0 GL_UNSIGNED_INT 0] else []) ∧
  ∀ c, c ∈ calls_of (OpenGLRenderer.render shape) st →
       is_draw c = true → draw_count c = Some 0.
Proof.
  intros Hfaces Hconv Hreach Hi.
  pose proof (reachable_cache_ok _ Hreach) as Hok.
  destruct (render_draws shape st Hconv Hok Hi) as [Hr Hc].
  rewrite Hfaces in Hc. simpl in Hc.
  split; [done|]. split; [|split; [done|]].
  { destruct (render_entry shape st Hconv Hok) as (e & He & Hn). exists e.
    change (OpenGLRenderer.render shape) with (call (Render shape)).
    rewrite (call_geoms (Render shape) st). by rewrite Hn, Hfaces. }
  intros c Hin Hd.
  assert (c ∈ List.filter is_draw (calls_of (OpenGLRenderer.render shape) st)) as Hin'.
  { apply list_elem_of_In, List.filter_In. by rewrite <- list_elem_of_In. }
  rewrite Hc in Hin'.
  destruct (fill_enabled _), (stroke_enabled _); simpl in Hin';
    repeat match goal with
    | Hc : _ ∈ _ :: _ |- _ => apply elem_of_cons in Hc as [-> | Hc]
    | Hc : _ ∈ [] |- _ => by apply elem_of_nil in Hc
    end; done.
Qed.

(** C5.  With stroke enabled, on an initialised renderer, [render] of a
    shape whose coordinates convert to [GLfloat] ends with the stroke
    pass: the stroke colour is written to the uniform named [fill_color]
    and then the line loop is drawn, with the element count of the
    shape's cache entry; no line loop is drawn before.  The program of a
    renderer that was constructed and initialised has no uniform but
    [fill_color]. *)
Theorem render_stroke_uses_fill_color shape st :
  stroke_enabled (sketch_attrs st) = true →
  initialized st →
  convertible shape →
  (∃ pre e,
     geoms (exec (OpenGLRenderer.render shape) st) !! str_dict shape = Some e ∧
     calls_of (OpenGLRenderer.render shape) st =
       pre ++
       [ glUniform4f "fill_color" (normalized (stroke_color (sketch_attrs st)));
         glDrawElements GL_LINE_LOOP (num_elements e) GL_UNSIGNED_INT 0 ] ∧
     ∀ c, c ∈ pre → draw_mode c ≠ Some GL_LINE_LOOP) ∧
  (∀ w name,
     is_Some (uniforms (shader_program (run [Initialize]
                (exec OpenGLRenderer.__init__ w))) !! name) →
     name = "fill_color").
Proof.
  intros Hs Hi Hconv. split.
  - destruct (_create_buffers_caches shape st Hconv) as [e He].
    pose proof (initialized_create shape st Hi) as Hi'.
    destruct (_draw_buffers_run _ _ _ He (λ _, Hi')) as (_ & Hc & _).
    rewrite sketch_attrs_create, Hs in Hc.
    pose proof (render_calls shape st) as Hrc.
    rewrite Hc, !app_assoc in Hrc.
    eexists _, e. split; [|split; [exact Hrc|]].
    + rewrite render_exec.
      by rewrite (_draw_buffers_keeps_geoms (str_dict shape) _).
    + intros c Hin.
      apply elem_of_app in Hin as [Hin|Hin];
        [apply elem_of_app in Hin as [Hin|Hin]|].
      * pose proof (_create_buffers_draws_nothing shape st) as Hn.
        destruct c; try done. exfalso.
        apply list_elem_of_In in Hin.
        assert (List.In (glDrawElements mode count type indices)
                  (List.filter is_draw
                     (calls_of (OpenGLRenderer._create_buffers shape) st))) as Hf
          by (by apply List.filter_In).
        by rewrite Hn in Hf.
      * repeat match goal with
          | Hc : _ ∈ _ :: _ |- _ => apply elem_of_cons in Hc as [-> | Hc]
          | Hc : _ ∈ [] |- _ => by apply elem_of_nil in Hc
          end; done.
      * destruct (fill_enabled (sketch_attrs st));
          repeat match goal with
          | Hc : _ ∈ _ :: _ |- _ => apply elem_of_cons in Hc as [-> | Hc]
          | Hc : _ ∈ [] |- _ => by apply elem_of_nil in Hc
          end; done.
  - intros w name Hn. apply initialize_few_uniforms in Hn as [->|Hn]; [done|].
    unfold exec, OpenGLRenderer.__init__, ShaderProgram.new, bind, gets, ret in Hn.
    simpl in Hn. rewrite lookup_empty in Hn. by destruct Hn.
Qed.

(** C10.  After a [render] with stroke enabled, on an initialised
    renderer, of a shape whose coordinates convert to [GLfloat], the
    uniform [fill_color] holds the stroke colour.  It holds the fill
    colour after such a [render] with fill enabled and stroke disabled,
    and no other call of the renderer gives it a new value that is not
    the stroke colour. *)
Theorem render_leaves_stroke_color shape st :
  stroke_enabled (sketch_attrs st) = true →
  initialized st →
  convertible shape →
  gl_uniforms (exec (OpenGLRenderer.render shape) st) !! "fill_color" =
    Some (normalized (stroke_color (sketch_attrs st))) ∧
  (∀ st' shape',
     initialized st' →
     convertible shape' →
     fill_enabled (sketch_attrs st') = true →
     stroke_enabled (sketch_attrs st') = false →
     gl_uniforms (exec (OpenGLRenderer.render shape') st') !! "fill_color" =
       Some (normalized (fill_color (sketch_attrs st')))) ∧
  (∀ st' m v,
     gl_uniforms (exec (call m) st') !! "fill_color" = Some v →
     gl_uniforms st' !! "fill_color" ≠ Some v →
     ∃ shape', m = Render shape' ∧
       ((stroke_enabled (sketch_attrs st') = true ∧
         v = normalized (stroke_color (sketch_attrs st'))) ∨
        (stroke_enabled (sketch_attrs st') = false ∧
         fill_enabled (sketch_attrs st') = true ∧
         v = normalized (fill_color (sketch_attrs st'))))).
Proof.
  assert (∀ st' shape' e,
    geoms (exec (OpenGLRenderer._create_buffers shape') st') !! str_dict shape'
      = Some e →
    initialized st' →
    gl_uniforms (exec (OpenGLRenderer.render shape') st') =
      (if stroke_enabled (sketch_attrs st')
       then <["fill_color" := normalized (stroke_color (sketch_attrs st'))]>
       else id)
        ((if fill_enabled (sketch_attrs st')
          then <["fill_color" := normalized (fill_color (sketch_attrs st'))]>
          else id) (gl_uniforms st'))) as Hrender.
  { intros st' shape' e He Hi'.
    pose proof (initialized_create shape' st' Hi') as Hi''.
    destruct (_draw_buffers_run _ _ _ He (λ _, Hi'')) as (_ & _ & Hu).
    rewrite render_exec, Hu, sketch_attrs_create.
    by rewrite (_create_buffers_keeps_uniforms shape' st'). }
  intros Hs Hi Hconv. split; [|split].
  - destruct (_create_buffers_caches shape st Hconv) as [e He].
    rewrite (Hrender _ _ _ He Hi), Hs. apply lookup_insert_eq.
  - intros st' shape' Hi' Hconv' Hf' Hs'.
    destruct (_create_buffers_caches shape' st' Hconv') as [e He].
    rewrite (Hrender _ _ _ He Hi'), Hf', Hs'.
    apply lookup_insert_eq.
  - intros st' m v Hv Hne. destruct m as [| | |shape'| | |].
    1-3, 5-7: exfalso; apply Hne; rewrite <- Hv; simpl; try reflexivity.
    { by rewrite initialize_keeps_uniforms. }
    exists shape'. split; [done|]. simpl in Hv.
    set (st'' := exec (OpenGLRenderer._create_buffers shape') st') in *.
    destruct (geoms st'' !! str_dict shape') as [e|] eqn:He.
    + destruct (decide (initialized st')) as [Hi'|Hi'].
      * rewrite (Hrender _ _ _ He Hi') in Hv.
        destruct (stroke_enabled (sketch_attrs st')).
        -- left. rewrite lookup_insert_eq in Hv. by injection Hv as <-.
        -- right. destruct (fill_enabled (sketch_attrs st')); simpl in Hv.
           ++ rewrite lookup_insert_eq in Hv. by injection Hv as <-.
           ++ done.
      * exfalso. apply Hne. rewrite <- Hv. rewrite render_exec.
        rewrite _draw_buffers_uniforms_uninitialized.
        -- by rewrite (_create_buffers_keeps_uniforms shape' st').
        -- unfold initialized in *.
           by rewrite (_create_buffers_keeps_program shape' st').
    + exfalso. apply Hne. rewrite <- Hv. rewrite render_exec. fold st''.
      unfold exec at 1, OpenGLRenderer._draw_buffers, bind, geoms_item.
      rewrite He. simpl. subst st''.
      by rewrite (_create_buffers_keeps_uniforms shape' st').
Qed.

(** C7.  The cache never evicts.  A renderer is constructed and called
    any number of times; if the shapes it rendered have pairwise distinct
    keys and coordinates that convert to [GLfloat], the cache has exactly
    one entry for each of them, and its keys are the keys of the shapes
    rendered.  No call removes or changes an entry: what the cache holds
    before a call, or before a sequence of calls, it holds after. *)
Theorem cache_never_evicts w (ops : list (method num)) :
  NoDup (str_dict <$> rendered ops) →
  Forall (λ shape, convertible shape) (rendered ops) →
  size (geoms (run ops (exec OpenGLRenderer.__init__ w))) = length (rendered ops) ∧
  dom (geoms (run ops (exec OpenGLRenderer.__init__ w))) =
    list_to_set (str_dict <$> rendered ops) ∧
  (∀ st m key e,
     geoms st !! key = Some e → geoms (exec (call m) st) !! key = Some e) ∧
  (∀ st ops' key e,
     geoms st !! key = Some e → geoms (run ops' st) !! key = Some e).
Proof.
  intros Hnd Hconv.
  assert (dom (geoms (run ops (exec OpenGLRenderer.__init__ w))) =
            list_to_set (str_dict <$> rendered ops)) as Hdom.
  { rewrite run_dom, uploaded_all by done.
    assert (dom (geoms (exec OpenGLRenderer.__init__ w)) = ∅) as -> by done.
    by rewrite union_empty_r_L. }
  split; [|split; [done|split]].
  - rewrite <- size_dom, Hdom, size_list_to_set by done.
    by rewrite length_fmap.
  - intros st m key e Hk. by eapply lookup_weaken, call_subseteq.
  - intros st ops' key e Hk. by eapply lookup_weaken, run_subseteq.
Qed.

(** C6 (amended).  [initialize] makes no capability check.  Whether or
    not the platform supports the renderer, it first enables the depth
    test, sets the depth function and the viewport, and then compiles and
    attaches the two shaders, links and activates the program.  It raises
    only the error of a shader that does not compile or of a program that
    does not link, never the [RuntimeError] of a capability check, and
    what it does is the same on a platform that is supported and on one
    that is not.  [check_support] is the method inherited from
    [BaseRenderer]: it raises [NotImplementedError]. *)
Theorem initialize_makes_no_capability_check st :
  let d := driver st in
  let vertex := compiles d "vertex" OpenGLRenderer.vertex_shader_source in
  let fragment := compiles d "fragment" OpenGLRenderer.fragment_shader_source in
  let program := pid (shader_program st) in
  calls_of OpenGLRenderer.initialize st =
    [ glEnable GL_DEPTH_TEST; glDepthFunc GL_LEQUAL;
      glViewport 0 0 (width (sketch_attrs st)) (height (sketch_attrs st)) ] ++
    (if vertex then
       [ shader_compile "vertex" OpenGLRenderer.vertex_shader_source;
         shader_attach "vertex" program ] ++
       (if fragment then
          [ shader_compile "fragment" OpenGLRenderer.fragment_shader_source;
            shader_attach "fragment" program ] ++
          (if links d then [program_link program; program_activate program]
           else [])
        else [])
     else []) ∧
  outcome OpenGLRenderer.initialize st =
    (if vertex then
       if fragment then
         if links d then inr tt else inl ShaderLinkError
       else inl (ShaderCompileError "fragment")
     else inl (ShaderCompileError "vertex")) ∧
  (∀ msg, outcome OpenGLRenderer.initialize st ≠ inl (RuntimeError msg)) ∧
  (∀ b,
     outcome OpenGLRenderer.initialize (with_supported b st) =
       outcome OpenGLRenderer.initialize st ∧
     calls_of OpenGLRenderer.initialize (with_supported b st) =
       calls_of OpenGLRenderer.initialize st) ∧
  OpenGLRenderer.check_support st = (st, inl (NotImplementedError "Abstract")).
Proof.
  intros d vertex fragment program.
  assert (∀ st',
    calls_of OpenGLRenderer.initialize st' = _ ∧
    outcome OpenGLRenderer.initialize st' = _) as Hrun
    by (exact initialize_run).
  destruct (Hrun st) as [Hc Ho]. split; [exact Hc|]. split; [exact Ho|].
  split; [|split; [|reflexivity]].
  - intros msg. rewrite Ho. by repeat case_match.
  - intros b. destruct (Hrun (with_supported b st)) as [Hc' Ho'].
    by rewrite Hc', Ho', Hc, Ho.
Qed.

(** C8 (amended).  On the base renderer [initialize], [render] and
    [clear] are abstract: they raise [NotImplementedError] and leave the
    state alone, as do [check_support] and [test_render].  The per-frame
    hooks [pre_render] and [post_render] and also [cleanup] do nothing
    and return. *)
Theorem base_renderer_methods shape st :
  BaseRenderer.initialize st = (st, inl (NotImplementedError "Abstract")) ∧
  BaseRenderer.render shape st = (st, inl (NotImplementedError "Abstract")) ∧
  BaseRenderer.clear st = (st, inl (NotImplementedError "Abstract")) ∧
  BaseRenderer.check_support st = (st, inl (NotImplementedError "Abstract")) ∧
  BaseRenderer.test_render st = (st, inl (NotImplementedError "Abstract")) ∧
  BaseRenderer.pre_render st = (st, inr tt) ∧
  BaseRenderer.post_render st = (st, inr tt) ∧
  BaseRenderer.cleanup st = (st, inr tt).
Proof. repeat split. Qed.
End Claims.

(** * The claims on examples *)

(** C1 on the unit square and a new, initialised renderer: the first
    call generates two buffers and fills them with the twelve coordinates
    as floats and the six indices, the second uploads nothing. *)
Lemma render_twice_reuses_entry_witness :
  List.filter is_upload
    (calls_of (OpenGLRenderer.render unit_square) (started good_driver true false))
    = [ glGenBuffers 1 1; glGenBuffers 1 2;
        glBufferData GL_ARRAY_BUFFER 48
          (GLfloat_array
             (float_of_double ∘ double_of_int <$>
                [0; 0; 0; 1; 0; 0; 1; -1; 0; 0; -1; 0]%Z)) GL_STATIC_DRAW;
        glBufferData GL_ELEMENT_ARRAY_BUFFER 24
          (GLuint_array [0; 1; 2; 2; 3; 0]%Z) GL_STATIC_DRAW ] ∧
  List.filter is_upload
    (calls_of (OpenGLRenderer.render unit_square)
       (exec (OpenGLRenderer.render unit_square) (started good_driver true false)))
    = [].
Proof.
  destruct (render_twice_reuses_entry unit_square (started good_driver true false))
    as [_ Hc].
  destruct (Hc (float_of_double ∘ double_of_int <$>
                  [0; 0; 0; 1; 0; 0; 1; -1; 0; 0; -1; 0]%Z))
    as (_ & Hu & _ & Hn).
  - vm_compute. reflexivity.
  - split; [|exact Hn]. rewrite Hu. vm_compute. reflexivity.
Defined.

(** C3 on the unit square, with fill and stroke disabled. *)
Lemma render_disabled_draws_nothing_witness :
  List.filter is_draw
    (calls_of (OpenGLRenderer.render unit_square) (started good_driver false false))
    = [] ∧
  outcome (OpenGLRenderer.render unit_square) (started good_driver false false)
    = inr tt.
Proof.
  destruct (render_disabled_draws_nothing unit_square
              (started good_driver false false)) as [Hd Ho].
  - reflexivity.
  - reflexivity.
  - split; [exact Hd|]. apply Ho. right.
    apply (bool_decide_unpack _). vm_compute. exact I.
Defined.

(** C2 on the unit square of [test_render]. *)
Lemma render_square_fill_only_witness :
  List.filter is_draw
    (calls_of (OpenGLRenderer.render unit_square) (started good_driver true false))
    = [glDrawElements GL_TRIANGLES 6 GL_UNSIGNED_INT 0].
Proof.
  apply (render_square_fill_only unit_square (started good_driver true false)).
  - reflexivity.
  - reflexivity.
  - repeat constructor.
  - apply (bool_decide_unpack _). vm_compute. exact I.
  - apply (reachable_call _ Initialize), reachable_new.
  - exists glUniform4f_setter. vm_compute. reflexivity.
  - reflexivity.
  - reflexivity.
Defined.

(** C4 on a shape with three vertices and no face, fill and stroke
    enabled. *)
Lemma render_no_faces_witness :
  outcome (OpenGLRenderer.render faceless) (started good_driver true true) = inr tt ∧
  (∃ e, geoms (exec (OpenGLRenderer.render faceless) (started good_driver true true))
          !! str_dict faceless = Some e ∧
        num_elements e = 0) ∧
  List.filter is_draw
    (calls_of (OpenGLRenderer.render faceless) (started good_driver true true)) =
    [ glDrawElements GL_TRIANGLES 0 GL_UNSIGNED_INT 0;
      glDrawElements GL_LINE_LOOP 0 GL_UNSIGNED_INT 0 ] ∧
  ∀ c, c ∈ calls_of (OpenGLRenderer.render faceless) (started good_driver true true) →
       is_draw c = true → draw_count c = Some 0.
Proof.
  apply (render_no_faces faceless (started good_driver true true)).
  - reflexivity.
  - apply (bool_decide_unpack _). vm_compute. exact I.
  - apply (reachable_call _ Initialize), reachable_new.
  - exists glUniform4f_setter. vm_compute. reflexivity.
Defined.

(** C5 on the unit square, fill and stroke enabled. *)
Lemma render_stroke_uses_fill_color_witness :
  ∃ pre e,
    geoms (exec (OpenGLRenderer.render unit_square) (started good_driver true true))
      !! str_dict unit_square = Some e ∧
    calls_of (OpenGLRenderer.render unit_square) (started good_driver true true) =
      pre ++ [ glUniform4f "fill_color" (normalized black);
               glDrawElements GL_LINE_LOOP (num_elements e) GL_UNSIGNED_INT 0 ] ∧
    ∀ c, c ∈ pre → draw_mode c ≠ Some GL_LINE_LOOP.
Proof.
  apply (render_stroke_uses_fill_color unit_square (started good_driver true true)).
  - reflexivity.
  - exists glUniform4f_setter. vm_compute. reflexivity.
  - apply (bool_decide_unpack _). vm_compute. exact I.
Defined.

(** C10 on the unit square, fill and stroke enabled: the uniform is left
    black, the stroke colour, not white, the fill colour. *)
Lemma render_leaves_stroke_color_witness :
  gl_uniforms (exec (OpenGLRenderer.render unit_square) (started good_driver true true))
    !! "fill_color" = Some (normalized black).
Proof.
  apply (render_leaves_stroke_color unit_square (started good_driver true true)).
  - reflexivity.
  - exists glUniform4f_setter. vm_compute. reflexivity.
  - apply (bool_decide_unpack _). vm_compute. exact I.
Defined.

(** C7 on a run that renders two shapes: two entries. *)
Lemma cache_never_evicts_witness :
  size (geoms (run [Initialize; Render unit_square; Clear; Render faceless;
                    Cleanup]
                 (exec OpenGLRenderer.__init__ (ambient good_driver true true))))
    = 2.
Proof.
  apply (cache_never_evicts (ambient good_driver true true)
           [Initialize; Render unit_square; Clear; Render faceless; Cleanup]).
  - apply (bool_decide_unpack _). vm_compute. exact I.
  - apply (bool_decide_unpack _). vm_compute. exact I.
Defined.

(** C6: on a platform that does not support the renderer [initialize]
    checks nothing.  Where the shaders compile it returns normally; where
    they do not, the depth test and the viewport are set before the
    compile error is raised. *)
Lemma initialize_unsupported_counterexample :
  supported (driver (constructed lenient_driver true false)) = false ∧
  outcome OpenGLRenderer.initialize (constructed lenient_driver true false) = inr tt ∧
  supported (driver (constructed rejecting_driver true false)) = false ∧
  outcome OpenGLRenderer.initialize (constructed rejecting_driver true false)
    = inl (ShaderCompileError "vertex") ∧
  calls_of OpenGLRenderer.initialize (constructed rejecting_driver true false)
    = [glEnable GL_DEPTH_TEST; glDepthFunc GL_LEQUAL; glViewport 0 0 600 400] ∧
  ¬ (supported (driver (constructed lenient_driver true false)) = false →
     ∃ e, outcome OpenGLRenderer.initialize (constructed lenient_driver true false)
            = inl e) ∧
  ¬ (supported (driver (constructed rejecting_driver true false)) = false →
     calls_of OpenGLRenderer.initialize (constructed rejecting_driver true false)
       = []).
Proof.
  repeat split; try reflexivity.
  - intros Hc. by destruct (Hc eq_refl) as [e He].
  - intros Hc. by specialize (Hc eq_refl).
Qed.

(** C8: [cleanup] of the base renderer returns and raises nothing. *)
Lemma base_cleanup_counterexample :
  BaseRenderer.cleanup (ambient good_driver true true)
    = (ambient good_driver true true, inr tt) ∧
  ¬ (∃ msg, outcome BaseRenderer.cleanup (ambient good_driver true true)
              = inl (NotImplementedError msg)).
Proof. split; [reflexivity|]. by intros [msg Hm]. Qed.

(** * Further properties *)

Section Further.
Context `{Number num}.
Implicit Types (st w : State num) (shape : Shape num) (m : method num).

Lemma _draw_buffers_outcome key e st :
  geoms st !! key = Some e →
  outcome (OpenGLRenderer._draw_buffers key) st =
    if decide (initialized st) then inr tt
    else if fill_enabled (sketch_attrs st) || stroke_enabled (sketch_attrs st)
         then inl (UniformError "fill_color")
         else inr tt.
Proof.
  intros Hk. case_decide as Hi.
  - by destruct (_draw_buffers_run _ _ _ Hk (λ _, Hi)) as (Hr & _).
  - unfold initialized in Hi. apply eq_None_not_Some in Hi.
    open_state st. run. rewrite Hk. simpl.
    destruct fill_enabled0, stroke_enabled0; simpl; rewrite ?Hi; done.
Qed.

(** Without the uniform, [_draw_buffers] gets as far as the attribute
    layout. *)
Lemma _draw_buffers_uninitialized_calls key e st :
  geoms st !! key = Some e →
  ¬ initialized st →
  let location := attrib_location (driver st) (pid (shader_program st)) "position" in
  calls_of (OpenGLRenderer._draw_buffers key) st =
    [ glBindBuffer GL_ARRAY_BUFFER (vertex_buffer e);
      glGetAttribLocation (pid (shader_program st)) "position";
      glEnableVertexAttribArray location;
      glVertexAttribPointer location 3 GL_FLOAT false 0 0 ].
Proof.
  intros Hk Hi. unfold initialized in Hi. apply eq_None_not_Some in Hi.
  open_state st. run. rewrite Hk. simpl.
  destruct fill_enabled0, stroke_enabled0; simpl; rewrite ?Hi; simpl;
    new_calls; done.
Qed.

Lemma render_geoms shape st :
  geoms (exec (OpenGLRenderer.render shape) st) =
  geoms (exec (OpenGLRenderer._create_buffers shape) st).
Proof. apply (call_geoms (Render shape)). Qed.

Lemma render_outcome_unfold shape st :
  is_Some (geoms st !! str_dict shape) ∨ convertible shape →
  outcome (OpenGLRenderer.render shape) st =
  outcome (OpenGLRenderer._draw_buffers (str_dict shape))
    (exec (OpenGLRenderer._create_buffers shape) st).
Proof.
  unfold outcome, exec. intros [Hk|Hc].
  - by rewrite render_cached, _create_buffers_cached.
  - by rewrite render_unfold.
Qed.

(** After [_create_buffers] the key is cached, if it was or the shape
    converts. *)
Lemma _create_buffers_entry shape st :
  is_Some (geoms st !! str_dict shape) ∨ convertible shape →
  is_Some (geoms (exec (OpenGLRenderer._create_buffers shape) st) !! str_dict shape).
Proof.
  intros [Hk|Hc]; [|by apply _create_buffers_caches].
  unfold exec. by rewrite _create_buffers_cached.
Qed.

Lemma render_outcome_eq shape st :
  outcome (OpenGLRenderer.render shape) st =
    if decide (is_Some (geoms st !! str_dict shape) ∨ convertible shape)
    then
      if decide (initialized st) then inr tt
      else if fill_enabled (sketch_attrs st) || stroke_enabled (sketch_attrs st)
           then inl (UniformError "fill_color")
           else inr tt
    else inl (OverflowError "int too large to convert to float").
Proof.
  case_decide as Hor.
  - destruct (_create_buffers_entry shape st Hor) as [e He].
    rewrite render_outcome_unfold, (_draw_buffers_outcome _ _ _ He) by done.
    rewrite sketch_attrs_create.
    destruct (decide (initialized st)) as [Hi|Hi].
    + rewrite decide_True; [done|]. by apply initialized_create.
    + rewrite decide_False; [done|]. unfold initialized in *.
      by rewrite (_create_buffers_keeps_program shape st).
  - unfold outcome. rewrite render_overflow; [done| |tauto].
    apply eq_None_not_Some. tauto.
Qed.

(** X1.  The outcome of [render].  If the key of the shape is not cached
    and a coordinate does not convert to [GLfloat], it raises the
    [OverflowError] of the conversion.  Else it raises exactly when the
    uniform [fill_color] is not registered and fill or stroke is enabled,
    and what it raises then is the error of the unregistered uniform.  It
    never raises the [KeyError] of a missing cache entry. *)
Theorem render_outcome shape st :
  outcome (OpenGLRenderer.render shape) st =
    (if decide (is_Some (geoms st !! str_dict shape) ∨ convertible shape)
     then
       if decide (initialized st) then inr tt
       else if fill_enabled (sketch_attrs st) || stroke_enabled (sketch_attrs st)
            then inl (UniformError "fill_color")
            else inr tt
     else inl (OverflowError "int too large to convert to float")) ∧
  ∀ key, outcome (OpenGLRenderer.render shape) st ≠ inl (KeyError key).
Proof.
  split; [apply render_outcome_eq|].
  intros key. rewrite render_outcome_eq. by repeat case_match.
Qed.

Lemma driver_create shape st :
  driver (exec (OpenGLRenderer._create_buffers shape) st) = driver st.
Proof. run. case_decide; [done|]. simpl. by destruct (mapM _ _). Qed.

(** X2.  A [render] that raises for the uniform is not undone.  When the
    coordinates of the shape convert to [GLfloat], the uniform is not
    registered and fill or stroke is enabled, [render] raises after
    [_create_buffers] has run and the vertex buffer was bound and the
    attribute layout set: the entry of the shape is in the cache, no
    draw call was issued and no uniform written. *)
Theorem render_failure_keeps_entry shape st :
  convertible shape →
  ¬ initialized st →
  fill_enabled (sketch_attrs st) || stroke_enabled (sketch_attrs st) = true →
  let location := attrib_location (driver st) (pid (shader_program st)) "position" in
  outcome (OpenGLRenderer.render shape) st = inl (UniformError "fill_color") ∧
  (∃ e,
     geoms (exec (OpenGLRenderer.render shape) st) !! str_dict shape = Some e ∧
     calls_of (OpenGLRenderer.render shape) st =
       calls_of (OpenGLRenderer._create_buffers shape) st ++
       [ glBindBuffer GL_ARRAY_BUFFER (vertex_buffer e);
         glGetAttribLocation (pid (shader_program st)) "position";
         glEnableVertexAttribArray location;
         glVertexAttribPointer location 3 GL_FLOAT false 0 0 ]) ∧
  List.filter is_draw (calls_of (OpenGLRenderer.render shape) st) = [] ∧
  gl_uniforms (exec (OpenGLRenderer.render shape) st) = gl_uniforms st.
Proof.
  intros Hconv Hi Hp location.
  assert (¬ initialized (exec (OpenGLRenderer._create_buffers shape) st)) as Hi'.
  { unfold initialized in *.
    by rewrite (_create_buffers_keeps_program shape st). }
  destruct (_create_buffers_caches shape st Hconv) as [e He].
  pose proof (_draw_buffers_uninitialized_calls _ _ _ He Hi') as Hc.
  simpl in Hc.
  rewrite driver_create, (_create_buffers_keeps_program shape st) in Hc.
  assert (calls_of (OpenGLRenderer.render shape) st =
       calls_of (OpenGLRenderer._create_buffers shape) st ++
       [ glBindBuffer GL_ARRAY_BUFFER (vertex_buffer e);
         glGetAttribLocation (pid (shader_program st)) "position";
         glEnableVertexAttribArray location;
         glVertexAttribPointer location 3 GL_FLOAT false 0 0 ]) as Hcalls
    by (by rewrite render_calls, Hc).
  split; [|split; [|split]].
  - rewrite render_outcome_unfold, (_draw_buffers_outcome _ _ _ He) by auto.
    rewrite decide_False by done. by rewrite sketch_attrs_create, Hp.
  - exists e. split; [by rewrite render_geoms | done].
  - rewrite Hcalls, List.filter_app, _create_buffers_draws_nothing. done.
  - rewrite render_exec.
    rewrite _draw_buffers_uniforms_uninitialized by done.
    apply _create_buffers_keeps_uniforms.
Qed.

(** X3.  [_draw_buffers] raises [KeyError] exactly for a key that is not
    in the cache, and then before any call to the graphics API: the
    state is as it was. *)
Theorem _draw_buffers_missing_key key st :
  (geoms st !! key = None →
   OpenGLRenderer._draw_buffers key st = (st, inl (KeyError key))) ∧
  (∀ key', outcome (OpenGLRenderer._draw_buffers key) st = inl (KeyError key') →
           geoms st !! key = None).
Proof.
  split.
  - intros Hk. unfold OpenGLRenderer._draw_buffers, bind, geoms_item.
    by rewrite Hk.
  - intros key' Ho. destruct (geoms st !! key) as [e|] eqn:Hk; [|done].
    rewrite (_draw_buffers_outcome _ _ _ Hk) in Ho. by repeat case_match.
Qed.

(** X4.  What [render] draws of a shape whose coordinates convert to
    [GLfloat], on an initialised renderer reached from the constructor:
    one call in triangle mode if fill is enabled, then one line loop if
    stroke is enabled, each with as many elements as the faces of the
    shape have indices, also when the entry was cached by an earlier
    call. *)
Theorem render_draw_calls shape st :
  convertible shape →
  reachable st → initialized st →
  List.filter is_draw (calls_of (OpenGLRenderer.render shape) st) =
    (if fill_enabled (sketch_attrs st)
     then [glDrawElements GL_TRIANGLES (length (concat (faces shape)))
             GL_UNSIGNED_INT 0]
     else []) ++
    (if stroke_enabled (sketch_attrs st)
     then [glDrawElements GL_LINE_LOOP (length (concat (faces shape)))
             GL_UNSIGNED_INT 0]
     else []).
Proof.
  intros Hconv Hreach Hi.
  by destruct (render_draws shape st Hconv (reachable_cache_ok _ Hreach) Hi).
Qed.

(** ** Which buffers are bound *)

Lemma bound_buffer_app (target : GLenum) (l1 l2 : list (gl_call num)) :
  bound_buffer target (l1 ++ l2) =
  match bound_buffer target l2 with
  | Some b => Some b
  | None => bound_buffer target l1
  end.
Proof. unfold bound_buffer. by rewrite omap_app, last_app. Qed.

Lemma render_gl_calls shape st :
  gl_calls (exec (OpenGLRenderer.render shape) st) =
  gl_calls st ++
  calls_of (OpenGLRenderer._create_buffers shape) st ++
  calls_of (OpenGLRenderer._draw_buffers (str_dict shape))
    (exec (OpenGLRenderer._create_buffers shape) st).
Proof.
  rewrite <- render_calls. apply calls_of_spec, (call_more_calls (Render shape)).
Qed.

(** A key that is not cached, of a shape that converts: two buffers are
    generated and filled, and the entry records them. *)
Lemma _create_buffers_fresh shape st vertices_typed :
  geoms st !! str_dict shape = None →
  mapM to_GLfloat (concat (vertices shape)) = Some vertices_typed →
  let e := {| vertex_buffer := gl_next_buffer st;
              index_buffer := gl_next_buffer st + 1;
              num_elements := length (concat (faces shape)) |} in
  let location := attrib_location (driver st) (pid (shader_program st)) "position" in
  geoms (exec (OpenGLRenderer._create_buffers shape) st) =
    <[str_dict shape := e]> (geoms st) ∧
  calls_of (OpenGLRenderer._create_buffers shape) st =
    [ glGenBuffers 1 (vertex_buffer e);
      glGenBuffers 1 (index_buffer e);
      glBindBuffer GL_ARRAY_BUFFER (vertex_buffer e);
      glBufferData GL_ARRAY_BUFFER
        (4 * Z.of_nat (length vertices_typed))
        (GLfloat_array vertices_typed) GL_STATIC_DRAW;
      glBindBuffer GL_ELEMENT_ARRAY_BUFFER (index_buffer e);
      glBufferData GL_ELEMENT_ARRAY_BUFFER
        (4 * Z.of_nat (length (concat (faces shape))))
        (GLuint_array (to_GLuint <$> concat (faces shape))) GL_STATIC_DRAW;
      glGetAttribLocation (pid (shader_program st)) "position";
      glEnableVertexAttribArray location;
      glVertexAttribPointer location 3 GL_FLOAT false 0 0 ].
Proof.
  intros Hk Ha. run. rewrite decide_False by (rewrite Hk; by intros [? ?]).
  simpl. rewrite Ha. simpl. split; [done|]. by new_calls.
Qed.

Lemma _create_buffers_cached_calls shape st :
  is_Some (geoms st !! str_dict shape) →
  calls_of (OpenGLRenderer._create_buffers shape) st = [].
Proof.
  intros Hk. unfold calls_of, exec. rewrite (_create_buffers_cached _ _ Hk).
  simpl. by rewrite drop_all.
Qed.

(** What [_draw_buffers] binds: always the vertex buffer of the entry,
    and its index buffer only in the fill pass. *)
Lemma _draw_buffers_bindings key e st :
  geoms st !! key = Some e →
  bound_buffer GL_ARRAY_BUFFER (calls_of (OpenGLRenderer._draw_buffers key) st)
    = Some (vertex_buffer e) ∧
  bound_buffer GL_ELEMENT_ARRAY_BUFFER
      (calls_of (OpenGLRenderer._draw_buffers key) st)
    = if decide (initialized st)
      then if fill_enabled (sketch_attrs st) then Some (index_buffer e) else None
      else None.
Proof.
  intros Hk. case_decide as Hi.
  - destruct (_draw_buffers_run _ _ _ Hk (λ _, Hi)) as (_ & -> & _).
    by destruct (fill_enabled (sketch_attrs st)), (stroke_enabled (sketch_attrs st)).
  - by rewrite (_draw_buffers_uninitialized_calls _ _ _ Hk Hi).
Qed.

(** X5.  After [render] of a shape whose coordinates convert to
    [GLfloat], also when the call raised for the uniform, the array
    buffer bound is the vertex buffer of the shape's cache entry.  If
    this call uploaded the shape, or ran the fill pass, the element array
    buffer bound is the index buffer of the entry. *)
Theorem render_binds_own_buffers shape st :
  convertible shape →
  ∃ e,
    geoms (exec (OpenGLRenderer.render shape) st) !! str_dict shape = Some e ∧
    bound_buffer GL_ARRAY_BUFFER (gl_calls (exec (OpenGLRenderer.render shape) st))
      = Some (vertex_buffer e) ∧
    (geoms st !! str_dict shape = None ∨
     (initialized st ∧ fill_enabled (sketch_attrs st) = true) →
     bound_buffer GL_ELEMENT_ARRAY_BUFFER
         (gl_calls (exec (OpenGLRenderer.render shape) st))
       = Some (index_buffer e)).
Proof.
  intros Hconv.
  destruct (_create_buffers_caches shape st Hconv) as [e He]. exists e.
  destruct (_draw_buffers_bindings _ _ _ He) as [Ha Hel].
  split; [by rewrite render_geoms|]. split.
  - by rewrite render_gl_calls, !bound_buffer_app, Ha.
  - rewrite render_gl_calls, !bound_buffer_app, Hel, sketch_attrs_create.
    intros [Hk|[Hi Hf]].
    + destruct Hconv as [a Hconv].
      destruct (_create_buffers_fresh shape st a Hk Hconv) as [Hg Hc].
      rewrite Hg, lookup_insert_eq in He. injection He as <-.
      rewrite Hc.
      destruct (decide _); [destruct (fill_enabled (sketch_attrs st))|];
        reflexivity.
    + rewrite decide_True by (by apply initialized_create). by rewrite Hf.
Qed.

(** X6.  A cached shape rendered with fill disabled: no element array
    buffer is bound by the call.  The line loop of the stroke pass is
    drawn with the element array buffer that earlier calls left bound,
    which need not be the index buffer of the shape. *)
Theorem render_stroke_only_keeps_element_binding shape st :
  is_Some (geoms st !! str_dict shape) →
  fill_enabled (sketch_attrs st) = false →
  bound_buffer GL_ELEMENT_ARRAY_BUFFER
      (gl_calls (exec (OpenGLRenderer.render shape) st))
    = bound_buffer GL_ELEMENT_ARRAY_BUFFER (gl_calls st) ∧
  (initialized st → stroke_enabled (sketch_attrs st) = true →
   ∃ e, geoms st !! str_dict shape = Some e ∧
        List.filter is_draw (calls_of (OpenGLRenderer.render shape) st) =
          [glDrawElements GL_LINE_LOOP (num_elements e) GL_UNSIGNED_INT 0]).
Proof.
  intros Hk Hf. split.
  - destruct (_create_buffers_entry shape st (or_introl Hk)) as [e He].
    destruct (_draw_buffers_bindings _ _ _ He) as [_ Hel].
    rewrite render_gl_calls, !bound_buffer_app, Hel, sketch_attrs_create, Hf.
    rewrite (_create_buffers_cached_calls _ _ Hk). by case_decide.
  - intros Hi Hs. destruct Hk as [e Hk]. exists e. split; [done|].
    unfold calls_of, exec. rewrite render_cached by eauto.
    destruct (_draw_buffers_run _ _ _ Hk (λ _, Hi)) as (_ & Hc & _).
    unfold calls_of, exec in Hc. rewrite Hc, Hf, Hs. done.
Qed.
(** ** How many buffers are generated *)

Lemma filter_gen_buffers_upload (l : list (gl_call num)) :
  List.filter is_gen_buffers l = List.filter is_gen_buffers (List.filter is_upload l).
Proof.
  induction l as [|c l IH]; [done|].
  destruct c; simpl; by rewrite ?IH.
Qed.

(** One call: two buffers are generated for each entry added, and no
    other if the shape rendered converts. *)
Lemma call_gen_buffers m st :
  ∃ l, gl_calls (exec (call m) st) = gl_calls st ++ l ∧
       (2 * size (geoms (exec (call m) st)) ≤
          length (List.filter is_gen_buffers l) + 2 * size (geoms st))%nat ∧
       (Forall (λ shape, convertible shape) (rendered [m]) →
        length (List.filter is_gen_buffers l) + 2 * size (geoms st) =
        2 * size (geoms (exec (call m) st))).
Proof.
  exists (calls_of (call m) st). split.
  { apply calls_of_spec, call_more_calls. }
  rewrite call_geoms. destruct m as [| | |shape| | |]; simpl.
  - destruct (initialize_run st) as [-> _]. by repeat case_match.
  - unfold calls_of. simpl. by rewrite drop_all.
  - unfold calls_of. simpl. by rewrite drop_all.
  - rewrite render_calls, List.filter_app.
    rewrite (filter_gen_buffers_upload (calls_of (OpenGLRenderer._draw_buffers _) _)).
    rewrite _draw_buffers_uploads_nothing, app_nil_r.
    rewrite filter_gen_buffers_upload, _create_buffers_uploads.
    destruct (_create_buffers_geoms shape st) as (e & _ & ->).
    destruct (decide (is_Some (geoms st !! str_dict shape))) as [[e' Hk]|Hk].
    + rewrite Hk. simpl. split; [lia|]. intros _. lia.
    + apply eq_None_not_Some in Hk. rewrite Hk.
      destruct (decide (convertible shape)) as [[a Ha]|Hc].
      * rewrite Ha, map_size_insert_None by done.
        simpl. split; [lia|]. intros _. lia.
      * split; [destruct (mapM _ _); simpl; lia|].
        intros Hall. by apply Forall_cons in Hall as [? _].
  - unfold calls_of. simpl. by rewrite drop_all.
  - unfold calls_of, OpenGLRenderer.clear, exec, bind, gets, gl. simpl.
    by new_calls.
  - unfold calls_of. simpl. by rewrite drop_all.
Qed.

Lemma rendered_cons m (ops : list (method num)) :
  rendered (m :: ops) = rendered [m] ++ rendered ops.
Proof. by destruct m. Qed.

Lemma run_gen_buffers (ops : list (method num)) st :
  ∃ l, gl_calls (run ops st) = gl_calls st ++ l ∧
       (2 * size (geoms (run ops st)) ≤
          length (List.filter is_gen_buffers l) + 2 * size (geoms st))%nat ∧
       (Forall (λ shape, convertible shape) (rendered ops) →
        length (List.filter is_gen_buffers l) + 2 * size (geoms st) =
        2 * size (geoms (run ops st))).
Proof.
  revert st. induction ops as [|m ops IH]; intros st.
  - exists []. rewrite app_nil_r. simpl. split; [done|]. split; [lia|done].
  - rewrite run_cons.
    destruct (call_gen_buffers m st) as (l1 & Hl1 & Hn1 & He1).
    destruct (IH (exec (call m) st)) as (l2 & Hl2 & Hn2 & He2).
    exists (l1 ++ l2). split; [|split].
    + by rewrite Hl2, Hl1, app_assoc.
    + rewrite List.filter_app, length_app. lia.
    + rewrite rendered_cons. intros [H1 H2]%Forall_app.
      specialize (He1 H1). specialize (He2 H2).
      rewrite List.filter_app, length_app. lia.
Qed.

(** X7.  A renderer generates two buffers for each entry of its cache:
    after any sequence of calls on a new renderer, the [glGenBuffers]
    calls made since its construction are at least twice as many as the
    cache has entries.  They are exactly twice as many if the coordinates
    of every shape rendered convert to [GLfloat]; a render that raises in
    the conversion has generated two buffers that no entry records. *)
Theorem buffers_generated_twice_cache_size w (ops : list (method num)) :
  let st := run ops (exec OpenGLRenderer.__init__ w) in
  let generated :=
    length (List.filter is_gen_buffers (drop (length (gl_calls w)) (gl_calls st))) in
  (2 * size (geoms st) ≤ generated)%nat ∧
  (Forall (λ shape, convertible shape) (rendered ops) →
   generated = 2 * size (geoms st)) ∧
  (∀ shape st',
     geoms st' !! str_dict shape = None → ¬ convertible shape →
     List.filter is_gen_buffers (calls_of (OpenGLRenderer.render shape) st') =
       [ glGenBuffers 1 (gl_next_buffer st');
         glGenBuffers 1 (gl_next_buffer st' + 1) ] ∧
     geoms (exec (OpenGLRenderer.render shape) st') = geoms st').
Proof.
  intros st generated. subst st generated.
  destruct (run_gen_buffers ops (exec OpenGLRenderer.__init__ w))
    as (l & Hl & Hn & He).
  rewrite Hl.
  change (gl_calls (exec OpenGLRenderer.__init__ w)) with (gl_calls w).
  rewrite drop_app_length.
  assert (size (geoms (exec OpenGLRenderer.__init__ w)) = 0) as Hz by done.
  split; [lia|]. split; [intros Hall; specialize (He Hall); lia|].
  intros shape st' Hk Hc. split; [|apply render_same_geoms; by right].
  destruct (_create_buffers_overflow shape st' Hk Hc) as (_ & Hcalls & _).
  assert (calls_of (OpenGLRenderer.render shape) st' =
          calls_of (OpenGLRenderer._create_buffers shape) st') as ->.
  { unfold calls_of, exec. by rewrite render_overflow. }
  by rewrite Hcalls.
Qed.

(** X15.  A shape with a coordinate that does not convert to [GLfloat],
    under a key that is not cached: [render] raises the [OverflowError]
    of the conversion when it has generated two buffers and bound the
    first.  Nothing is uploaded or drawn, no uniform is written and
    nothing is cached, so that the next [render] of the shape does the
    same with two more buffers. *)
Theorem render_unconvertible shape st :
  geoms st !! str_dict shape = None →
  ¬ convertible shape →
  let st1 := exec (OpenGLRenderer.render shape) st in
  outcome (OpenGLRenderer.render shape) st =
    inl (OverflowError "int too large to convert to float") ∧
  calls_of (OpenGLRenderer.render shape) st =
    [ glGenBuffers 1 (gl_next_buffer st);
      glGenBuffers 1 (gl_next_buffer st + 1);
      glBindBuffer GL_ARRAY_BUFFER (gl_next_buffer st) ] ∧
  geoms st1 = geoms st ∧
  gl_uniforms st1 = gl_uniforms st ∧
  gl_next_buffer st1 = (gl_next_buffer st + 2)%Z ∧
  calls_of (OpenGLRenderer.render shape) st1 =
    [ glGenBuffers 1 (gl_next_buffer st + 2);
      glGenBuffers 1 (gl_next_buffer st + 3);
      glBindBuffer GL_ARRAY_BUFFER (gl_next_buffer st + 2) ].
Proof.
  intros Hk Hc st1.
  assert (∀ st', geoms st' !! str_dict shape = None →
    outcome (OpenGLRenderer.render shape) st' =
      inl (OverflowError "int too large to convert to float") ∧
    calls_of (OpenGLRenderer.render shape) st' =
      [ glGenBuffers 1 (gl_next_buffer st');
        glGenBuffers 1 (gl_next_buffer st' + 1);
        glBindBuffer GL_ARRAY_BUFFER (gl_next_buffer st') ] ∧
    gl_next_buffer (exec (OpenGLRenderer.render shape) st') =
      (gl_next_buffer st' + 2)%Z) as Hrun.
  { intros st' Hk'.
    destruct (_create_buffers_overflow shape st' Hk' Hc) as (Ho & Hcalls & _).
    unfold outcome, calls_of, exec in *. rewrite render_overflow by done.
    simpl. split; [done|]. split; [done|].
    apply eq_None_not_Some in Hc. run.
    rewrite decide_False by (rewrite Hk'; by intros [? ?]).
    simpl. rewrite Hc. simpl. lia. }
  assert (geoms st1 = geoms st) as Hg by (apply render_same_geoms; by right).
  destruct (Hrun st Hk) as (Ho & Hcalls & Hn).
  destruct (Hrun st1) as (_ & Hcalls1 & _); [by rewrite Hg|].
  fold st1 in Hn. rewrite Hn in Hcalls1.
  replace (gl_next_buffer st + 2 + 1)%Z with (gl_next_buffer st + 3)%Z
    in Hcalls1 by lia.
  repeat split; try done.
  subst st1. rewrite render_exec.
  assert (keeps same_uniforms (OpenGLRenderer._create_buffers shape)) as K
    by keeps_tac.
  destruct (_create_buffers_overflow shape st Hk Hc) as (_ & _ & Hg').
  unfold exec at 1, OpenGLRenderer._draw_buffers, bind, geoms_item.
  rewrite Hg', Hk. simpl. apply K.
Qed.
End Further.

(** * The cache key *)

Lemma repr_int_inj (z1 z2 : Z) : repr_int z1 = repr_int z2 → z1 = z2.
Proof.
  unfold repr_int. intros E. apply DecimalZ.to_int_inj.
  assert (∀ z, Z.to_int z ≠ Decimal.Pos Decimal.Nil ∧
               Z.to_int z ≠ Decimal.Neg Decimal.Nil) as Hn.
  { intros [|p|p]; simpl; split; try done.
    - intros [= Hp]. by apply Unsigned.to_uint_nonnil in Hp.
    - intros [= Hp]. by apply Unsigned.to_uint_nonnil in Hp. }
  destruct (Hn z1) as [Hp1 Hm1], (Hn z2) as [Hp2 Hm2].
  pose proof (NilZero.isi _ Hp1 Hm1) as E1.
  pose proof (NilZero.isi _ Hp2 Hm2) as E2.
  rewrite E in E1. congruence.
Qed.

Lemma all_chars_uint (d : Decimal.uint) :
  all_chars is_item_char (NilEmpty.string_of_uint d) = true.
Proof. induction d; simpl; done. Qed.

Lemma repr_int_chars (z : Z) : all_chars is_item_char (repr_int z) = true.
Proof.
  unfold repr_int. destruct (Z.to_int z) as [d|d]; simpl;
    destruct d; simpl; try done; apply all_chars_uint.
Qed.

Lemma repr_int_nonempty (z : Z) : repr_int z ≠ "".
Proof.
  unfold repr_int. destruct (Z.to_int z) as [d|d]; simpl; [|done].
  by destruct d.
Qed.

#[global] Instance Z_NumberLaws : NumberLaws Z.
Proof.
  split.
  - exact repr_int_inj.
  - exact repr_int_nonempty.
  - exact repr_int_chars.
Qed.

(** Two strings of item characters, each followed by a character that is
    none, are equal if what they make is equal. *)
Lemma token_split (s1 s2 : string) (c1 c2 : ascii) (r1 r2 : string) :
  all_chars is_item_char s1 = true → all_chars is_item_char s2 = true →
  is_item_char c1 = false → is_item_char c2 = false →
  s1 +:+ String c1 r1 = s2 +:+ String c2 r2 →
  s1 = s2 ∧ c1 = c2 ∧ r1 = r2.
Proof.
  revert s2. induction s1 as [|a s1 IH]; intros [|b s2] H1 H2 Hc1 Hc2; str_norm;
    intros [= E1 E2]; simpl in *.
  - done.
  - subst. rewrite Hc1 in H2. done.
  - subst. rewrite Hc2 in H1. done.
  - subst. apply andb_prop in H1 as [_ H1], H2 as [_ H2].
    destruct (IH s2 H1 H2 Hc1 Hc2 E2) as (-> & -> & ->). done.
Qed.

Section Items.
Context {A : Type} (r : A → string).
Hypothesis r_inj : ∀ x y, r x = r y → x = y.
Hypothesis r_nonempty : ∀ x, r x ≠ "".
Hypothesis r_chars : ∀ x, all_chars is_item_char (r x) = true.

Lemma item_split (x y : A) (c1 c2 : ascii) (r1 r2 : string) :
  is_item_char c1 = false → is_item_char c2 = false →
  r x +:+ String c1 r1 = r y +:+ String c2 r2 →
  x = y ∧ c1 = c2 ∧ r1 = r2.
Proof.
  intros Hc1 Hc2 E.
  destruct (token_split _ _ _ _ _ _ (r_chars x) (r_chars y) Hc1 Hc2 E)
    as (Hr & -> & ->).
  by apply r_inj in Hr as ->.
Qed.

Lemma tuple_items_inj (x : A) (t : list A) (y : A) (u : list A) (r1 r2 : string) :
  String.concat ", " (r <$> x :: t) +:+ String ")" r1 =
  String.concat ", " (r <$> y :: u) +:+ String ")" r2 →
  x :: t = y :: u ∧ r1 = r2.
Proof.
  revert x y u. induction t as [|x' t IH]; intros x y [|y' u].
  - simpl. intros E. apply item_split in E; [|reflexivity..]. by destruct E as (-> & _ & ->).
  - rewrite !fmap_cons, (concat_cons2 _ (r y)). simpl String.concat at 1. str_norm. intros E.
    apply item_split in E; [|reflexivity..]. by destruct E as (_ & [=] & _).
  - rewrite !fmap_cons, (concat_cons2 _ (r x)). simpl String.concat at 2. str_norm. intros E.
    apply item_split in E; [|reflexivity..]. by destruct E as (_ & [=] & _).
  - rewrite !fmap_cons, (concat_cons2 _ (r x)), (concat_cons2 _ (r y)), <- !fmap_cons.
    str_norm. intros E.
    apply item_split in E; [|reflexivity..]. destruct E as (-> & _ & [= E']).
    by destruct (IH _ _ _ E') as ([= -> ->] & ->).
Qed.

Lemma repr_tuple_inj (t u : list A) (r1 r2 : string) :
  repr_tuple r t +:+ r1 = repr_tuple r u +:+ r2 → t = u ∧ r1 = r2.
Proof.
  assert (∀ x s s', String ")" s ≠ r x +:+ s') as Hclose.
  { intros x s s' E. pose proof (r_chars x) as Hx. pose proof (r_nonempty x).
    destruct (r x) as [|a rx]; [done|]. revert E. str_norm. intros [= <- _].
    done. }
  destruct t as [|x [|x' t]], u as [|y [|y' u]]; unfold repr_tuple;
    try rewrite !fmap_cons; rewrite ?(concat_cons2 _ (r x)), ?(concat_cons2 _ (r y));
    str_norm; intros [= E].
  - done.
  - by apply Hclose in E.
  - by apply Hclose in E.
  - symmetry in E. by apply Hclose in E.
  - apply item_split in E; [|reflexivity..]. by destruct E as (-> & _ & [= ->]).
  - apply item_split in E; [|reflexivity..]. by destruct E as (_ & _ & [=]).
  - symmetry in E. by apply Hclose in E.
  - apply item_split in E; [|reflexivity..]. by destruct E as (_ & _ & [=]).
  - pose proof (tuple_items_inj x (x' :: t) y (y' :: u) r1 r2) as Hi.
    rewrite !fmap_cons, (concat_cons2 _ (r x)), (concat_cons2 _ (r y)) in Hi.
    revert Hi. str_norm. intros Hi. by apply Hi.
Qed.

Lemma list_items_inj (t : list A) (l : list (list A)) (u : list A)
    (k : list (list A)) (r1 r2 : string) :
  String.concat ", " (repr_tuple r <$> t :: l) +:+ String "]" r1 =
  String.concat ", " (repr_tuple r <$> u :: k) +:+ String "]" r2 →
  t :: l = u :: k ∧ r1 = r2.
Proof.
  revert t u k. induction l as [|t' l IH]; intros t u [|u' k].
  - simpl. intros E. by destruct (repr_tuple_inj _ _ _ _ E) as (-> & [= ->]).
  - rewrite !fmap_cons, (concat_cons2 _ (repr_tuple r u)). simpl String.concat at 1.
    str_norm. intros E. by destruct (repr_tuple_inj _ _ _ _ E) as (_ & [=]).
  - rewrite !fmap_cons, (concat_cons2 _ (repr_tuple r t)). simpl String.concat at 2.
    str_norm. intros E. by destruct (repr_tuple_inj _ _ _ _ E) as (_ & [=]).
  - rewrite !fmap_cons, (concat_cons2 _ (repr_tuple r t)),
      (concat_cons2 _ (repr_tuple r u)), <- !fmap_cons.
    str_norm. intros E.
    destruct (repr_tuple_inj _ _ _ _ E) as (-> & [= E']).
    by destruct (IH _ _ _ E') as ([= -> ->] & ->).
Qed.

Lemma repr_tuple_open (t : list A) : ∃ s, repr_tuple r t = String "(" s.
Proof. destruct t as [|x [|x' t]]; unfold repr_tuple; str_norm; eauto. Qed.

Lemma repr_list_inj (l k : list (list A)) (r1 r2 : string) :
  repr_list (repr_tuple r) l +:+ r1 = repr_list (repr_tuple r) k +:+ r2 →
  l = k ∧ r1 = r2.
Proof.
  unfold repr_list. destruct l as [|t l], k as [|u k]; str_norm.
  - simpl. str_norm. by intros [= ->].
  - rewrite fmap_cons. destruct (repr_tuple_open u) as [s Hs].
    destruct k; simpl; rewrite Hs; str_norm; by intros [=].
  - rewrite fmap_cons. destruct (repr_tuple_open t) as [s Hs].
    destruct l; simpl; rewrite Hs; str_norm; by intros [=].
  - intros [= E]. by apply list_items_inj in E.
Qed.
End Items.

Lemma all_chars_app (p : ascii → bool) (a b : string) :
  all_chars p (a +:+ b) = all_chars p a && all_chars p b.
Proof.
  induction a as [|c a IH]; str_norm; simpl; [done|].
  by rewrite IH, andb_assoc.
Qed.

Lemma all_chars_impl (p q : ascii → bool) (s : string) :
  (∀ c, p c = true → q c = true) → all_chars p s = true → all_chars q s = true.
Proof.
  intros Hpq. induction s as [|c s IH]; simpl; [done|].
  intros [Hc Hs]%andb_prop. by rewrite (Hpq _ Hc), IH.
Qed.

Lemma int_char_not_quote (c : ascii) :
  is_int_char c = true → not_quote c = true.
Proof. destruct c as [[] [] [] [] [] [] [] []]; done. Qed.

Lemma repr_int_digits (z : Z) :
  all_chars is_int_char (repr_int z) = true.
Proof.
  assert (∀ d, all_chars is_int_char
                 (NilEmpty.string_of_uint d) = true) as Hd
    by (induction d; simpl; done).
  unfold repr_int. destruct (Z.to_int z) as [d|d]; simpl;
    destruct d; simpl; try done; apply Hd.
Qed.

Lemma all_chars_concat (p : ascii → bool) (l : list string) :
  p ","%char = true → p " "%char = true →
  Forall (λ s, all_chars p s = true) l →
  all_chars p (String.concat ", " l) = true.
Proof.
  intros Hc Hs. induction 1 as [|s l H1 Hl IH]; [done|].
  destruct l as [|s' l]; [done|].
  rewrite concat_cons2, !all_chars_app, H1, IH. simpl. by rewrite Hc, Hs.
Qed.

Lemma repr_faces_chars (fs : list (list Z)) :
  all_chars not_quote (repr_list (repr_tuple repr_int) fs) = true.
Proof.
  assert (∀ z, all_chars not_quote (repr_int z) = true) as Hz.
  { intros z. eapply all_chars_impl; [apply int_char_not_quote | apply repr_int_digits]. }
  assert (∀ t, all_chars not_quote (repr_tuple repr_int t) = true) as Ht.
  { intros [|x [|x' t]]; unfold repr_tuple; rewrite ?all_chars_app, ?Hz; try done.
    rewrite all_chars_concat; try done.
    apply Forall_fmap, Forall_forall. intros z _. apply Hz. }
  unfold repr_list. rewrite !all_chars_app, all_chars_concat; try done.
  apply Forall_fmap, Forall_forall. intros t _. apply Ht.
Qed.

(** The part of a string after its last quote. *)
Lemma after_last_quote (s1 s2 t1 t2 : string) :
  all_chars not_quote t1 = true → all_chars not_quote t2 = true →
  s1 +:+ String "'" t1 = s2 +:+ String "'" t2 → t1 = t2.
Proof.
  intros H1 H2. revert s2. induction s1 as [|a s1 IH]; intros [|b s2]; str_norm.
  - by intros [= ->].
  - intros [= <- ->]. rewrite all_chars_app in H1. simpl in H1.
    by rewrite andb_false_r in H1.
  - intros [= -> <-]. rewrite all_chars_app in H2. simpl in H2.
    by rewrite andb_false_r in H2.
  - intros [= _ E]. by apply IH in E.
Qed.

Section Keys.
Context `{Number num}.

Lemma str_dict_faces_inj (s1 s2 : Shape num) :
  str_dict s1 = str_dict s2 → faces s1 = faces s2.
Proof.
  unfold str_dict. intros E.
  assert (∀ V F, "{'vertices': " +:+ V +:+ ", 'faces': " +:+ F +:+ "}" =
    ("{'vertices': " +:+ V +:+ ", 'faces") +:+ String "'" (": " +:+ F +:+ "}")) as Hsplit
    by (intros; by str_norm).
  rewrite !Hsplit in E. apply after_last_quote in E.
  - apply (inj (String.append _)) in E.
    by apply (repr_list_inj _ repr_int_inj repr_int_nonempty repr_int_chars) in E as [? _].
  - by rewrite !all_chars_app, repr_faces_chars.
  - by rewrite !all_chars_app, repr_faces_chars.
Qed.

Context `{!NumberLaws num}.

Lemma str_dict_inj (s1 s2 : Shape num) : str_dict s1 = str_dict s2 → s1 = s2.
Proof.
  intros E. pose proof (str_dict_faces_inj _ _ E) as Hf.
  unfold str_dict in E. apply (inj (String.append _)) in E.
  apply (repr_list_inj _ repr_num_inj repr_num_nonempty repr_num_chars) in E as [Hv _].
  destruct s1, s2; simpl in *; by subst.
Qed.
End Keys.

Section KeyProperties.
Context `{Number num}.
Implicit Types (st w : State num) (shape : Shape num).

(** X8.  The cache key tells the faces apart, however the numbers of the
    vertices print: two shapes with different faces have different
    keys. *)
Theorem cache_key_separates_faces (s1 s2 : Shape num) :
  faces s1 ≠ faces s2 → str_dict s1 ≠ str_dict s2.
Proof. intros Hne E. by apply Hne, str_dict_faces_inj. Qed.

Context `{!NumberLaws num}.

(** X9.  Where numbers print well, the cache key is injective: two
    different shapes never have the same key, so that a shape never
    finds the buffers of another in the cache. *)
Theorem cache_key_injective (s1 s2 : Shape num) :
  s1 ≠ s2 → str_dict s1 ≠ str_dict s2.
Proof. intros Hne E. by apply Hne, str_dict_inj. Qed.

(** X10.  Where numbers print well, the cache of a renderer holds the
    shapes it rendered whose coordinates convert to [GLfloat], and no
    others: after any sequence of calls on a new renderer the key of a
    shape is cached exactly if the shape was rendered and converts, and
    rendering pairwise different shapes leaves as many entries as there
    are shapes that convert. *)
Theorem cache_holds_rendered_shapes w (ops : list (method num)) :
  (∀ shape,
     is_Some (geoms (run ops (exec OpenGLRenderer.__init__ w)) !! str_dict shape)
     ↔ shape ∈ rendered ops ∧ convertible shape) ∧
  (NoDup (rendered ops) →
   size (geoms (run ops (exec OpenGLRenderer.__init__ w))) = length (uploaded ops)) ∧
  (Forall (λ shape, convertible shape) (rendered ops) →
   uploaded ops = rendered ops).
Proof.
  assert (dom (geoms (run ops (exec OpenGLRenderer.__init__ w))) =
            list_to_set (str_dict <$> uploaded ops)) as Hdom.
  { rewrite run_dom.
    assert (dom (geoms (exec OpenGLRenderer.__init__ w)) = ∅) as -> by done.
    by rewrite union_empty_r_L. }
  split; [|split; [|apply uploaded_all]].
  - intros shape. rewrite <- elem_of_dom, Hdom, elem_of_list_to_set.
    rewrite list_elem_of_fmap. unfold uploaded. split.
    + intros (shape' & E & Hin). apply str_dict_inj in E as ->.
      apply list_elem_of_filter in Hin. tauto.
    + intros [Hin Hc]. exists shape. split; [done|].
      by apply list_elem_of_filter.
  - intros Hnd. rewrite <- size_dom, Hdom, size_list_to_set, length_fmap; [done|].
    apply NoDup_fmap_2; [|by apply NoDup_filter]. intros s1 s2. apply str_dict_inj.
Qed.
End KeyProperties.

(** * [initialize] and the calls that follow *)

(** The renderer after [initialize]: the uniform is registered if the
    shaders compiled and the program linked, and nothing else of the
    renderer, the sketch or the platform has changed. *)
Lemma initialize_state {num} (st : State num) :
  let d := driver st in
  let ok := compiles d "vertex" OpenGLRenderer.vertex_shader_source &&
            compiles d "fragment" OpenGLRenderer.fragment_shader_source &&
            links d in
  shader_program (exec OpenGLRenderer.initialize st) =
    (if ok
     then {| pid := pid (shader_program st);
             uniforms := <["fill_color" := glUniform4f_setter]>
                           (uniforms (shader_program st)) |}
     else shader_program st) ∧
  driver (exec OpenGLRenderer.initialize st) = driver st ∧
  sketch_attrs (exec OpenGLRenderer.initialize st) = sketch_attrs st ∧
  (outcome OpenGLRenderer.initialize st = inr tt ↔ ok = true).
Proof.
  destruct st as [attrs d calls next us prog cache].
  unfold outcome, exec, OpenGLRenderer.initialize,
    OpenGLRenderer._init_shaders, OpenGLRenderer.compile_and_attach,
    Shader.compile, Shader.attach, ShaderProgram.link,
    ShaderProgram.activate, ShaderProgram.add_uniform,
    gl, gets, bind, ret, raise.
  simpl.
  destruct (compiles d "vertex" _); simpl; [|by repeat split].
  destruct (compiles d "fragment" _); simpl; [|by repeat split].
  destruct (links d); simpl; by repeat split.
Qed.

Section Initialize.
Context `{Number num}.
Implicit Types (st w : State num) (shape : Shape num) (m : method num).

Lemma initialized_call m st :
  initialized st → initialized (exec (call m) st).
Proof.
  intros Hi. destruct m as [| | |shape| | |]; try done.
  - unfold initialized. simpl.
    destruct (initialize_state st) as (-> & _). case_match; [|done].
    simpl. rewrite lookup_insert_eq. eauto.
  - unfold initialized. simpl.
    assert (keeps same_program (OpenGLRenderer.render shape)) as K by keeps_tac.
    by rewrite (K st).
Qed.

Lemma initialized_run (ops : list (method num)) st :
  initialized st → initialized (run ops st).
Proof.
  revert st. induction ops as [|m ops IH]; intros st Hi; [done|].
  rewrite run_cons. by apply IH, initialized_call.
Qed.

(** X11.  Once [initialize] has returned on a new renderer, no later
    [render] of a shape whose coordinates convert to [GLfloat] raises,
    whatever calls came between and whatever the sketch attributes are.
    If [initialize] raised, the uniform was not registered, and a
    [render] of such a shape with fill or stroke enabled raises the error
    of the unregistered uniform. *)
Theorem initialize_decides_render w shape :
  convertible shape →
  let st0 := exec OpenGLRenderer.__init__ w in
  let st1 := exec OpenGLRenderer.initialize st0 in
  (outcome OpenGLRenderer.initialize st0 = inr tt →
   ∀ ops attrs,
     outcome (OpenGLRenderer.render shape) (with_sketch_attrs attrs (run ops st1))
       = inr tt) ∧
  (outcome OpenGLRenderer.initialize st0 ≠ inr tt →
   fill_enabled (sketch_attrs w) || stroke_enabled (sketch_attrs w) = true →
   outcome (OpenGLRenderer.render shape) st1 = inl (UniformError "fill_color")).
Proof.
  intros Hconv st0 st1.
  destruct (initialize_state st0) as (Hp & _ & Ha & Hok).
  split.
  - intros Ho ops attrs. apply Hok in Ho.
    rewrite render_outcome_eq, decide_True by (by right).
    rewrite decide_True; [done|].
    change (initialized (run ops st1)). apply initialized_run.
    unfold initialized. fold st1 in Hp. rewrite Hp, Ho. simpl.
    rewrite lookup_insert_eq. eauto.
  - intros Ho Hpass.
    assert (¬ initialized st1) as Hi.
    { rewrite Hok in Ho. apply not_true_is_false in Ho.
      unfold initialized. fold st1 in Hp. rewrite Hp, Ho.
      subst st0. unfold exec, OpenGLRenderer.__init__, ShaderProgram.new,
        bind, gets, ret. simpl. rewrite lookup_empty. by intros [? ?]. }
    rewrite render_outcome_eq, decide_True by (by right).
    rewrite decide_False by done.
    fold st1 in Ha. rewrite Ha.
    change (sketch_attrs st0) with (sketch_attrs w). by rewrite Hpass.
Qed.
End Initialize.

(** * [test_render] *)

Section TestRenderProperties.
Context `{Number num} `{!Arith num} `{!Core num}.
Implicit Types (st : State num) (shape : Shape num).

Lemma cache_grows_trans (a b : nat) st1 st2 st3 :
  cache_grows a st1 st2 → cache_grows b st2 st3 → cache_grows (a + b) st1 st3.
Proof.
  intros [Hs1 Hn1] [Hs2 Hn2]. split; [by etrans | lia].
Qed.

Lemma cache_grows_bind {A B} (a b : nat) (m : M num A) (k : A → M num B) :
  (∀ st, cache_grows a st (exec m st)) →
  (∀ x st, cache_grows b st (exec (k x) st)) →
  ∀ st, cache_grows (a + b) st (exec (bind m k) st).
Proof.
  intros Hm Hk st. specialize (Hm st). unfold exec, bind in *.
  destruct (m st) as [st' [e|x]]; simpl in *.
  - destruct Hm as [Hs Hn]. split; [done | lia].
  - eapply cache_grows_trans; [exact Hm | apply Hk].
Qed.

Lemma render_cache_grows shape st :
  cache_grows 1 st (exec (OpenGLRenderer.render shape) st).
Proof.
  unfold cache_grows. rewrite render_geoms.
  destruct (_create_buffers_geoms shape st) as (e & _ & ->).
  destruct (geoms st !! str_dict shape) eqn:Hk.
  - split; [done | lia].
  - case_decide; [|split; [done | lia]].
    split; [by apply insert_subseteq|].
    rewrite map_size_insert_None by done. lia.
Qed.

Lemma fill_cache_grows (args : list num) st :
  cache_grows 0 st (exec (fill args) st).
Proof.
  unfold cache_grows. change (geoms (exec (fill args) st)) with (geoms st).
  split; [done | lia].
Qed.

Lemma for_each_cache_grows {A} (k : nat) (l : list A) (body : A → M num unit) :
  (∀ x st, cache_grows k st (exec (body x) st)) →
  ∀ st, cache_grows (k * length l) st (exec (for_each l body) st).
Proof.
  intros Hbody. induction l as [|x l IH]; intros st.
  - change (exec (for_each [] body) st) with st. split; [done | lia].
  - replace (k * length (x :: l)) with (k + k * length l) by (simpl; lia).
    simpl for_each. apply cache_grows_bind; [apply Hbody | intros _; apply IH].
Qed.

(** X14.  [test_render] renders 96 rectangles: whether it returns or
    raises, it keeps every entry the cache had and adds at most 96. *)
Theorem test_render_cache st :
  (∀ key e, geoms st !! key = Some e →
            geoms (exec OpenGLRenderer.test_render st) !! key = Some e) ∧
  (size (geoms (exec OpenGLRenderer.test_render st)) ≤ size (geoms st) + 96)%nat.
Proof.
  assert (cache_grows 96 st (exec OpenGLRenderer.test_render st)) as [Hs Hn].
  { change 96 with (3 * length (range (-1 * 16) 16)).
    apply for_each_cache_grows. intros i st'.
    change 3 with (0 + (1 + (0 + (1 + (0 + 1))))).
    repeat first [ apply cache_grows_bind; [|intros _]; intros ?
                 | apply fill_cache_grows
                 | apply render_cache_grows ]. }
  split; [|done]. intros key e Hk. by eapply lookup_weaken.
Qed.
Lemma draws_with_trans (n : nat) st1 st2 st3 :
  draws_with n st1 st2 → draws_with n st2 st3 → draws_with n st1 st3.
Proof.
  intros (l1 & E1 & H1) (l2 & E2 & H2). exists (l1 ++ l2). split.
  - by rewrite E2, E1, app_assoc.
  - by apply Forall_app.
Qed.

Lemma draws_ready_seq (n : nat) (m1 m2 : M num unit) :
  draws_ready n m1 → draws_ready n m2 → draws_ready n (m1;;; m2).
Proof.
  intros H1 H2 st Hst. destruct (H1 st Hst) as (Ho1 & Hr1 & Hd1).
  unfold outcome, exec, bind in *.
  destruct (m1 st) as [st1 r1]. simpl in *. subst r1.
  destruct (H2 st1 Hr1) as (Ho2 & Hr2 & Hd2).
  split; [done|]. split; [done|]. by eapply draws_with_trans.
Qed.

Lemma draws_ready_for_each {A} (n : nat) (l : list A) (body : A → M num unit) :
  (∀ x, draws_ready n (body x)) → draws_ready n (for_each l body).
Proof.
  intros Hbody. induction l as [|x l IH].
  - intros st Hst. split; [done|]. split; [done|].
    exists []. by rewrite app_nil_r.
  - simpl. by apply draws_ready_seq.
Qed.

Lemma draws_ready_fill (n : nat) (args : list num) : draws_ready n (fill args).
Proof.
  intros st [Hreach Hi]. split; [done|]. split.
  - split; [by apply reachable_sketch | done].
  - exists []. by rewrite app_nil_r.
Qed.

Lemma draws_ready_render shape :
  convertible shape →
  draws_ready (length (concat (faces shape))) (OpenGLRenderer.render shape).
Proof.
  intros Hconv st [Hreach Hi].
  destruct (render_draws shape st Hconv (reachable_cache_ok _ Hreach) Hi)
    as [Ho Hc].
  split; [done|]. split.
  - split; [apply (reachable_call st (Render shape) Hreach)|].
    by apply (initialized_call (Render shape)).
  - exists (calls_of (OpenGLRenderer.render shape) st). split.
    { apply calls_of_spec, (call_more_calls (Render shape)). }
    apply Forall_forall. intros c Hin Hd.
    assert (c ∈ List.filter is_draw (calls_of (OpenGLRenderer.render shape) st))
      as Hin'.
    { apply list_elem_of_In, List.filter_In. by rewrite <- list_elem_of_In. }
    rewrite Hc in Hin'.
    destruct (fill_enabled (sketch_attrs st)), (stroke_enabled (sketch_attrs st));
      simpl in Hin';
      repeat match goal with
      | Hc : _ ∈ _ :: _ |- _ => apply elem_of_cons in Hc as [-> | Hc]
      | Hc : _ ∈ [] |- _ => by apply elem_of_nil in Hc
      end; done.
Qed.

Context `{!ArithLaws num}.

(** The coordinates of a rectangle made of floats convert: they are the
    floats, their sum and difference, and the [int] 0. *)
Lemma TestRect_convertible (x y w h : num) :
  is_float x → is_float y → is_float w → is_float h →
  convertible (OpenGLRenderer.TestRect x y w h).
Proof.
  intros Hx Hy Hw Hh. unfold convertible. apply mapM_is_Some. simpl.
  pose proof zero_converts as Hz.
  pose proof (float_converts _ Hx).
  pose proof (float_converts _ Hy).
  pose proof (float_converts _ (is_float_add _ _ Hx Hw)).
  pose proof (float_converts _ (is_float_sub _ _ Hy Hh)).
  repeat constructor; done.
Qed.

(** X13.  Where floats convert to [GLfloat], [test_render] on an
    initialised renderer reached from the constructor returns without
    raising, and every draw call it issues has element count 6, the two
    triangles of a rectangle. *)
Theorem test_render_draws_rectangles st :
  reachable st → initialized st →
  outcome OpenGLRenderer.test_render st = inr tt ∧
  ∀ c, c ∈ calls_of OpenGLRenderer.test_render st →
       is_draw c = true → draw_count c = Some 6.
Proof.
  intros Hreach Hi.
  assert (draws_ready 6 OpenGLRenderer.test_render) as Hready.
  { apply draws_ready_for_each. intros i.
    repeat first [ apply draws_ready_seq
                 | apply draws_ready_fill
                 | apply (draws_ready_render (OpenGLRenderer.TestRect _ _ _ _)) ];
      apply TestRect_convertible; repeat constructor. }
  destruct (Hready st (conj Hreach Hi)) as (Ho & _ & l & Hl & Hall).
  split; [done|]. intros c Hin Hd.
  unfold calls_of in Hin. rewrite Hl, drop_app_length in Hin.
  by apply (proj1 (Forall_forall _ _) Hall).
Qed.
End TestRenderProperties.

(** * The further properties on examples *)

(** The conversion of a Python [int] to [GLfloat]: 1 is kept, 2^24 + 1
    is rounded to 2^24, 2^128 becomes infinite, and from 2^1024 - 2^970
    on the conversion raises. *)
Example int_to_GLfloat_examples :
  int_to_GLfloat 1 = Some (SpecFloat.S754_finite false 8388608 (-23)) ∧
  int_to_GLfloat 16777217 = Some (SpecFloat.S754_finite false 8388608 1) ∧
  int_to_GLfloat (2 ^ 128) = Some (SpecFloat.S754_infinity false) ∧
  int_to_GLfloat (2 ^ 1024 - 2 ^ 970 - 1) = Some (SpecFloat.S754_infinity false) ∧
  int_to_GLfloat (2 ^ 1024 - 2 ^ 970) = None ∧
  int_to_GLfloat (10 ^ 400) = None ∧
  int_to_GLfloat (- 10 ^ 400) = None.
Proof. repeat split; vm_compute; reflexivity. Qed.

(** X2 on a renderer that was constructed and not initialised, with fill
    enabled. *)
Lemma render_failure_keeps_entry_witness :
  outcome (OpenGLRenderer.render unit_square) (constructed good_driver true false)
    = inl (UniformError "fill_color") ∧
  (∃ e,
     geoms (exec (OpenGLRenderer.render unit_square)
              (constructed good_driver true false))
       !! str_dict unit_square = Some e ∧
     calls_of (OpenGLRenderer.render unit_square)
         (constructed good_driver true false) =
       calls_of (OpenGLRenderer._create_buffers unit_square)
         (constructed good_driver true false) ++
       [ glBindBuffer GL_ARRAY_BUFFER (vertex_buffer e);
         glGetAttribLocation 1 "position";
         glEnableVertexAttribArray 0;
         glVertexAttribPointer 0 3 GL_FLOAT false 0 0 ]) ∧
  List.filter is_draw
    (calls_of (OpenGLRenderer.render unit_square)
       (constructed good_driver true false)) = [] ∧
  gl_uniforms (exec (OpenGLRenderer.render unit_square)
                 (constructed good_driver true false)) = ∅.
Proof.
  apply (render_failure_keeps_entry unit_square (constructed good_driver true false)).
  - apply (bool_decide_unpack _). vm_compute. exact I.
  - intros [f Hf]. vm_compute in Hf. discriminate Hf.
  - reflexivity.
Defined.

(** X4 on the triangle, fill and stroke enabled. *)
Lemma render_draw_calls_witness :
  List.filter is_draw
    (calls_of (OpenGLRenderer.render triangle) (started good_driver true true)) =
    [ glDrawElements GL_TRIANGLES 3 GL_UNSIGNED_INT 0;
      glDrawElements GL_LINE_LOOP 3 GL_UNSIGNED_INT 0 ].
Proof.
  apply (render_draw_calls triangle (started good_driver true true)).
  - apply (bool_decide_unpack _). vm_compute. exact I.
  - apply (reachable_call _ Initialize), reachable_new.
  - exists glUniform4f_setter. vm_compute. reflexivity.
Defined.

(** X5 on the triangle, rendered with fill disabled after the unit
    square: the triangle is uploaded by the call, and its buffers 3 and 4
    are the ones bound. *)
Lemma render_binds_own_buffers_witness :
  bound_buffer GL_ARRAY_BUFFER
    (gl_calls (exec (OpenGLRenderer.render triangle)
                 (run [Render unit_square] (started good_driver false true))))
    = Some 3%Z ∧
  bound_buffer GL_ELEMENT_ARRAY_BUFFER
    (gl_calls (exec (OpenGLRenderer.render triangle)
                 (run [Render unit_square] (started good_driver false true))))
    = Some 4%Z.
Proof.
  destruct (render_binds_own_buffers triangle
              (run [Render unit_square] (started good_driver false true)))
    as (e & He & Ha & Hel).
  - apply (bool_decide_unpack _). vm_compute. exact I.
  - assert (e = {| vertex_buffer := 3; index_buffer := 4; num_elements := 3 |})
      as -> by (vm_compute in He; by injection He).
    split; [exact Ha|]. apply Hel. left. vm_compute. reflexivity.
Defined.

(** X6: the unit square and then the triangle are rendered filled; the
    unit square is rendered again with fill disabled and stroke enabled.
    Its line loop of 6 elements is drawn while buffer 4, the index buffer
    of the triangle, is bound; its own index buffer is 2. *)
Lemma render_stroke_only_keeps_element_binding_witness :
  bound_buffer GL_ELEMENT_ARRAY_BUFFER
    (gl_calls
       (exec (OpenGLRenderer.render unit_square)
          (with_sketch_attrs (example_attrs false true)
             (run [Render unit_square; Render triangle]
                (started good_driver true false)))))
    = Some 4%Z ∧
  ∃ e,
    geoms (with_sketch_attrs (example_attrs false true)
             (run [Render unit_square; Render triangle]
                (started good_driver true false)))
      !! str_dict unit_square = Some e ∧
    index_buffer e = 2%Z ∧
    List.filter is_draw
      (calls_of (OpenGLRenderer.render unit_square)
         (with_sketch_attrs (example_attrs false true)
            (run [Render unit_square; Render triangle]
               (started good_driver true false)))) =
      [glDrawElements GL_LINE_LOOP 6 GL_UNSIGNED_INT 0].
Proof.
  destruct (render_stroke_only_keeps_element_binding unit_square
              (with_sketch_attrs (example_attrs false true)
                 (run [Render unit_square; Render triangle]
                    (started good_driver true false)))) as [Hb Hd].
  - eexists. vm_compute. reflexivity.
  - reflexivity.
  - split.
    + rewrite Hb. vm_compute. reflexivity.
    + destruct Hd as (e & He & Hc).
      * exists glUniform4f_setter. vm_compute. reflexivity.
      * reflexivity.
      * exists e. split; [exact He|].
        assert (e = {| vertex_buffer := 1; index_buffer := 2; num_elements := 6 |})
          as -> by (vm_compute in He; by injection He).
        split; [reflexivity | exact Hc].
Defined.

(** X8 on the unit square and the triangle. *)
Lemma cache_key_separates_faces_witness :
  str_dict unit_square ≠ str_dict triangle.
Proof.
  apply (cache_key_separates_faces unit_square triangle). discriminate.
Defined.

(** X9 on the unit square and the shape of its first three vertices
    without faces, with integers for numbers. *)
Lemma cache_key_injective_witness :
  str_dict unit_square ≠ str_dict faceless.
Proof.
  apply (cache_key_injective unit_square faceless). discriminate.
Defined.

(** X7 on a run that renders two shapes, one of them twice: four
    buffers for two entries. *)
Lemma buffers_generated_twice_cache_size_witness :
  length (List.filter is_gen_buffers
            (drop (length (gl_calls (ambient good_driver true true)))
               (gl_calls (run [Initialize; Render unit_square; Render triangle;
                               Render unit_square]
                            (exec OpenGLRenderer.__init__
                               (ambient good_driver true true))))))
    = 2 * size (geoms (run [Initialize; Render unit_square; Render triangle;
                            Render unit_square]
                         (exec OpenGLRenderer.__init__
                            (ambient good_driver true true)))).
Proof.
  destruct (buffers_generated_twice_cache_size (ambient good_driver true true)
              [Initialize; Render unit_square; Render triangle;
               Render unit_square]) as (_ & Heq & _).
  apply Heq. apply (bool_decide_unpack _). vm_compute. exact I.
Defined.

(** X10 on a run that renders the unit square, the shape with a
    coordinate that is no double, and the triangle: the triangle is
    cached, the shape that does not convert and the shape without faces,
    which was not rendered, are not. *)
Lemma cache_holds_rendered_shapes_witness :
  is_Some (geoms (run [Initialize; Render unit_square; Render huge;
                       Render triangle]
                    (exec OpenGLRenderer.__init__ (ambient good_driver true true)))
             !! str_dict triangle) ∧
  ¬ is_Some (geoms (run [Initialize; Render unit_square; Render huge;
                         Render triangle]
                      (exec OpenGLRenderer.__init__ (ambient good_driver true true)))
               !! str_dict huge) ∧
  ¬ is_Some (geoms (run [Initialize; Render unit_square; Render huge;
                         Render triangle]
                      (exec OpenGLRenderer.__init__ (ambient good_driver true true)))
               !! str_dict faceless).
Proof.
  destruct (cache_holds_rendered_shapes (ambient good_driver true true)
              [Initialize; Render unit_square; Render huge; Render triangle])
    as [Hiff _].
  split; [|split].
  - apply Hiff. split.
    + simpl. apply elem_of_cons. right. apply elem_of_cons. right.
      apply elem_of_cons. by left.
    + apply (bool_decide_unpack _). vm_compute. exact I.
  - intros [_ [a Ha]]%Hiff. vm_compute in Ha. discriminate Ha.
  - intros [Hin _]%Hiff. simpl in Hin.
    repeat (apply elem_of_cons in Hin as [Hin|Hin]; [discriminate Hin|]).
    by apply elem_of_nil in Hin.
Defined.

(** X11 on the unit square: after [initialize] on a platform on which
    everything works, a [render] that follows other calls and a change of
    the sketch attributes returns. *)
Lemma initialize_decides_render_witness :
  outcome (OpenGLRenderer.render unit_square)
    (with_sketch_attrs (example_attrs true true)
       (run [Render triangle; Clear]
          (exec OpenGLRenderer.initialize
             (exec OpenGLRenderer.__init__ (ambient good_driver false false)))))
    = inr tt.
Proof.
  destruct (initialize_decides_render (ambient good_driver false false) unit_square)
    as [Hok _].
  - apply (bool_decide_unpack _). vm_compute. exact I.
  - apply Hok. reflexivity.
Defined.

(** X15 on the shape with a coordinate that is no double, on a new,
    initialised renderer: two buffers are generated and nothing is
    cached. *)
Lemma render_unconvertible_witness :
  outcome (OpenGLRenderer.render huge) (started good_driver true true) =
    inl (OverflowError "int too large to convert to float") ∧
  calls_of (OpenGLRenderer.render huge) (started good_driver true true) =
    [ glGenBuffers 1 1; glGenBuffers 1 2; glBindBuffer GL_ARRAY_BUFFER 1 ] ∧
  geoms (exec (OpenGLRenderer.render huge) (started good_driver true true)) = ∅.
Proof.
  destruct (render_unconvertible huge (started good_driver true true))
    as (Ho & Hc & Hg & _).
  - reflexivity.
  - intros [a Ha]. vm_compute in Ha. discriminate Ha.
  - split; [exact Ho|]. split; [exact Hc|]. exact Hg.
Defined.

(** Floats, as the expressions make them, are doubles and are cast to
    [GLfloat]. *)
Lemma is_float_eval (e : expr) : is_float e → ∃ d, eval e = VFloat d.
Proof.
  induction 1 as [text|a b|a b _ [da Ha] _ [db Hb]|a b _ [da Ha] _ [db Hb]
                 |a _ [da Ha]]; simpl.
  - eauto.
  - eauto.
  - rewrite Ha, Hb. eauto.
  - rewrite Ha, Hb. eauto.
  - rewrite Ha. eauto.
Qed.

#[global] Instance expr_ArithLaws : ArithLaws expr.
Proof.
  split.
  - intros x [d Hd]%is_float_eval. simpl. unfold expr_to_GLfloat.
    rewrite Hd. eauto.
  - vm_compute. eauto.
Qed.

(** X13 on a new, initialised renderer whose numbers are expressions. *)
Lemma test_render_draws_rectangles_witness :
  outcome OpenGLRenderer.test_render (started_expr true) = inr tt ∧
  ∀ c, c ∈ calls_of OpenGLRenderer.test_render (started_expr true) →
       is_draw c = true → draw_count c = Some 6.
Proof.
  apply (test_render_draws_rectangles (started_expr true)).
  - exact (reachable_call _ Initialize (reachable_new (ambient_expr true))).
  - exists glUniform4f_setter. vm_compute. reflexivity.
Defined.
